(** * careeraibot: the Telegram webhook relay and the Gemini edge proxy

    A shallow embedding of [api/webhook.js] (the Node.js handler that
    answers [pre_checkout_query] updates itself and relays every other
    update to the Python handler) and of the edge worker that proxies
    requests to the generative-language API.

    JavaScript data is modelled as it is at run time: strings are
    sequences of UTF-16 code units, numbers are IEEE 754 binary64 floats,
    a request body is an arbitrary JavaScript value.  The effects of the
    handler (console output, outbound [fetch] calls, calls on [res]) are
    recorded in a trace, and exceptions are explicit. *)

From Stdlib Require Import List NArith ZArith Bool Floats String Ascii Lia.
Import ListNotations.

Set Warnings "-register-all".

(** ** JavaScript strings *)

Module JsString.

(** A JavaScript string: its UTF-16 code units. *)
Definition t := list N.

(** An ASCII literal of the source, as code units. *)
Definition lit (s : string) : t :=
  List.map N_of_ascii (list_ascii_of_string s).

Fixpoint eqb (a b : t) : bool :=
  match a, b with
  | [], [] => true
  | c :: a', d :: b' => N.eqb c d && eqb a' b'
  | _, _ => false
  end.

Definition is_empty (s : t) : bool :=
  match s with [] => true | _ :: _ => false end.

(** ECMAScript WhiteSpace and LineTerminator code points, the ones
    [String.prototype.trim] strips.  All of them are in the BMP, so the
    test is per code unit. *)
Definition is_white_space (c : N) : bool :=
  ((9 <=? c) && (c <=? 13) || (c =? 32) || (c =? 160) || (c =? 5760)
   || (8192 <=? c) && (c <=? 8202) || (c =? 8232) || (c =? 8233)
   || (c =? 8239) || (c =? 8287) || (c =? 12288) || (c =? 65279))%N.

Fixpoint trimStart (s : t) : t :=
  match s with
  | [] => []
  | c :: r => if is_white_space c then trimStart r else s
  end.

Definition trimEnd (s : t) : t := rev (trimStart (rev s)).

(** [s.trim()] *)
Definition trim (s : t) : t := trimEnd (trimStart s).

(** [s.startsWith(p)] *)
Fixpoint startsWith (s p : t) : bool :=
  match p, s with
  | [], _ => true
  | _ :: _, [] => false
  | c :: p', d :: s' => N.eqb c d && startsWith s' p'
  end.

(** Upper and lower case of one ASCII code unit. *)
Definition ascii_upper (c : N) : N :=
  if ((97 <=? c) && (c <=? 122))%N then (c - 32)%N else c.

Definition ascii_lower (c : N) : N :=
  if ((65 <=? c) && (c <=? 90))%N then (c + 32)%N else c.

Definition is_ascii (c : N) : bool := (c <? 128)%N.

End JsString.

Definition jsstring : Type := JsString.t.

(** Literals of the source are written [js "..."]. *)
Definition js (s : string) : jsstring := JsString.lit s.
Arguments js : simpl never.

(** ** JavaScript values *)

Inductive value : Type :=
| VUndefined
| VNull
| VBool (b : bool)
| VNum (f : float)
| VStr (s : jsstring)
| VArr (items : list value)
| VObj (props : list (jsstring * value)).

Inductive js_type := TUndefined | TObject | TBoolean | TNumber | TString.

(** [typeof v]; [typeof null] is ['object'], and so is [typeof] of an array. *)
Definition typeof (v : value) : js_type :=
  match v with
  | VUndefined => TUndefined
  | VNull => TObject
  | VBool _ => TBoolean
  | VNum _ => TNumber
  | VStr _ => TString
  | VArr _ => TObject
  | VObj _ => TObject
  end.

Definition js_type_eqb (a b : js_type) : bool :=
  match a, b with
  | TUndefined, TUndefined | TObject, TObject | TBoolean, TBoolean
  | TNumber, TNumber | TString, TString => true
  | _, _ => false
  end.

(** ToBoolean: [undefined], [null], [false], [0], [-0], [NaN] and [''] are
    falsy, everything else is truthy. *)
Definition truthy (v : value) : bool :=
  match v with
  | VUndefined | VNull => false
  | VBool b => b
  | VNum f => negb (PrimFloat.is_zero f || PrimFloat.is_nan f)
  | VStr s => negb (JsString.is_empty s)
  | VArr _ | VObj _ => true
  end.

(** [a || b] *)
Definition js_or (a b : value) : value := if truthy a then a else b.

(** [v === 0] and [v === '0']-style comparisons against a primitive. *)
Definition strict_eq_num (v : value) (n : float) : bool :=
  match v with VNum f => PrimFloat.eqb f n | _ => false end.

Definition strict_eq_str (v : value) (s : jsstring) : bool :=
  match v with VStr x => JsString.eqb x s | _ => false end.

Fixpoint lookup (k : jsstring) (props : list (jsstring * value)) : value :=
  match props with
  | [] => VUndefined
  | (k', v) :: r => if JsString.eqb k k' then v else lookup k r
  end.

(** [v.k] for a property name [k] that no built-in prototype defines
    ([update_id], [pre_checkout_query], [id], [invoice_payload]): the own
    property of an object, [undefined] on any other value that can be
    read from; [None] is the TypeError of reading from [undefined] or
    [null]. *)
Definition get_prop (v : value) (k : jsstring) : option value :=
  match v with
  | VUndefined | VNull => None
  | VObj props => Some (lookup k props)
  | _ => Some VUndefined
  end.

(** ** The runtime functions the code calls *)

(** [String.prototype.toUpperCase], [JSON.parse] and [JSON.stringify] are
    the runtime's, not this repository's: the development is
    parametric in them.  [JSON_parse] returns [None] where [JSON.parse]
    throws a SyntaxError.  The one law used is that [toUpperCase] on a
    string of ASCII code units is the ASCII upper-casing. *)
Class JSRuntime : Type := {
  toUpperCase : jsstring -> jsstring;
  JSON_parse : jsstring -> option value;
  JSON_stringify : value -> jsstring;
  toUpperCase_ascii : forall s : jsstring,
    forallb JsString.is_ascii s = true ->
    toUpperCase s = List.map JsString.ascii_upper s
}.

(** ** Effects *)

(** What the handler can throw. *)
Inductive error :=
| TypeError        (* calling a method a value does not have *)
| FetchFailed      (* [fetch] rejected: the network call failed *)
| BodyReadFailed.  (* [r.text()] rejected *)

(** An outbound [fetch(url, init)]. *)
Record out_request := {
  rq_url : jsstring;
  rq_method : jsstring;
  rq_headers : list (jsstring * jsstring);
  rq_body : jsstring
}.

(** What [fetch] resolves to: the status and, when the body can be read,
    its text. *)
Record fetch_response := {
  r_status : Z;
  r_text : option jsstring
}.

(** [r.ok] *)
Definition r_ok (r : fetch_response) : bool :=
  ((200 <=? r_status r) && (r_status r <=? 299))%Z.

(** The surroundings of one invocation: the environment variable, the
    shape of [res], and what the network answers to each outbound call
    ([None]: the call fails). *)
Record world := {
  env_BOT_TOKEN : option jsstring;
  res_has_writeHead : bool;
  network : out_request -> option fetch_response
}.

Inductive log_level := Log | Warn | Error.

Inductive event :=
| Console (level : log_level) (tag : jsstring)
| Fetch (rq : out_request)
| ResSetHeader (name val : jsstring)
| ResStatus (code : Z)
| ResJson (v : value)
| ResSend (text : jsstring)
| ResWriteHead (code : Z) (headers : list (jsstring * jsstring))
| ResEnd (text : jsstring).

Inductive completion (A : Type) :=
| Returned (a : A)
| Threw (e : error).
Arguments Returned {A} a.
Arguments Threw {A} e.

(** A computation reads the world, leaves a trace and returns or throws. *)
Definition M (A : Type) : Type := world -> list event * completion A.

Definition ret {A} (a : A) : M A := fun _ => ([], Returned a).

Definition throw {A} (e : error) : M A := fun _ => ([], Threw e).

Definition bind {A B} (m : M A) (f : A -> M B) : M B :=
  fun w =>
    match m w with
    | (t1, Returned a) => let (t2, c) := f a w in (t1 ++ t2, c)
    | (t1, Threw e) => (t1, Threw e)
    end.

(** [try { m } catch (e) { h e }] *)
Definition try_catch {A} (m : M A) (h : error -> M A) : M A :=
  fun w =>
    match m w with
    | (t1, Returned a) => (t1, Returned a)
    | (t1, Threw e) => let (t2, c) := h e w in (t1 ++ t2, c)
    end.

Definition emit (e : event) : M unit := fun _ => ([e], Returned tt).

Definition ask {A} (f : world -> A) : M A := fun w => ([], Returned (f w)).

Declare Scope js_scope.
Delimit Scope js_scope with js.
Notation "x <- m ;; k" := (bind m (fun x => k))
  (at level 61, m at next level, right associativity) : js_scope.
Notation "m ;; k" := (bind m (fun _ => k))
  (at level 61, right associativity) : js_scope.
Open Scope js_scope.

(** [await fetch(url, init)] *)
Definition fetch (rq : out_request) : M fetch_response :=
  emit (Fetch rq) ;;
  answer <- ask (fun w => network w rq) ;;
  match answer with
  | Some r => ret r
  | None => throw FetchFailed
  end.

(** [await r.text()] *)
Definition text (r : fetch_response) : M jsstring :=
  match r_text r with
  | Some t => ret t
  | None => throw BodyReadFailed
  end.

(** [v.k], throwing on [undefined] and [null]. *)
Definition prop (v : value) (k : jsstring) : M value :=
  match get_prop v k with
  | Some x => ret x
  | None => throw TypeError
  end.

(** [v.trim()]: only a string has the method. *)
Definition trim_of (v : value) : M jsstring :=
  match v with
  | VStr s => ret (JsString.trim s)
  | _ => throw TypeError
  end.

(** [o || d] for a string that may be [undefined]. *)
Definition or_str (o : option jsstring) (d : jsstring) : jsstring :=
  match o with
  | Some s => if JsString.is_empty s then d else s
  | None => d
  end.

Definition run {A} (m : M A) (w : world) : list event := fst (m w).
Definition result {A} (m : M A) (w : world) : completion A := snd (m w).

(** The outbound calls of a trace, in order. *)
Fixpoint calls (tr : list event) : list out_request :=
  match tr with
  | [] => []
  | Fetch rq :: r => rq :: calls r
  | _ :: r => calls r
  end.

(** ** api/webhook.js *)

(** The inbound request, as far as the handler reads it.  [req.method]
    and [req.headers.host] are strings or [undefined]; [req.body] is
    whatever the platform's body parser left there. *)
Record request := {
  req_method : option jsstring;
  req_url : jsstring;
  req_host : option jsstring;
  req_body : value
}.

(** [{ ok: true }] and [{ ok: false }] *)
Definition ok_true : value := VObj [(js "ok", VBool true)].
Definition ok_false : value := VObj [(js "ok", VBool false)].

(** The text of [body.error_message] (line 58), in code units: a Russian
    sentence telling the payer that the invoice is wrong and to use the
    bot's buy button. *)
Definition error_message_text : jsstring :=
  [1053; 1077; 1074; 1077; 1088; 1085; 1099; 1081; 32; 1089; 1095; 1105;
   1090; 46; 32; 1048; 1089; 1087; 1086; 1083; 1100; 1079; 1091; 1081;
   1090; 1077; 32; 1082; 1085; 1086; 1087; 1082; 1091; 32; 171; 1050;
   1091; 1087; 1080; 1090; 1100; 32; 80; 114; 101; 109; 105; 117; 109;
   187; 32; 1080; 1079; 32; 1073; 1086; 1090; 1072; 46]%N.

Definition content_type_json : jsstring * jsstring :=
  (js "Content-Type", js "application/json").

(** [{ pre_checkout_query_id: pq.id, ok }], with [error_message] added
    when [ok] is false (lines 57-58). *)
Definition approval_body (pq_id : value) (ok : bool) : value :=
  VObj ([(js "pre_checkout_query_id", pq_id); (js "ok", VBool ok)]
        ++ (if ok then [] else [(js "error_message", VStr error_message_text)])).

(** [uid === 0 || uid === '0'] (line 41) *)
Definition isWarm (uid : value) : bool :=
  strict_eq_num uid 0%float || strict_eq_str uid (js "0").

Section Webhook.

Context {rt : JSRuntime}.

(** The request to the messaging API (lines 61-65). *)
Definition approval_request (token : jsstring) (body : value) : out_request :=
  {| rq_url := js "https://api.telegram.org/bot" ++ token
               ++ js "/answerPreCheckoutQuery";
     rq_method := js "POST";
     rq_headers := [content_type_json];
     rq_body := JSON_stringify body |}.

(** The request to the Python handler (lines 78-85). *)
Definition forward_request (req : request) (update : value) : out_request :=
  {| rq_url := js "https://"
               ++ or_str (req_host req) (js "careeraibot.vercel.app")
               ++ js "/api/webhook-handler";
     rq_method := js "POST";
     rq_headers := [content_type_json];
     rq_body := JSON_stringify update |}.

(** [process.env.BOT_TOKEN || ''] (line 54) *)
Definition token_of (w : world) : jsstring :=
  or_str (env_BOT_TOKEN w) (js "").

(** Lines 53-74: the [if (pq)] branch. *)
Definition answer_pre_checkout (pq : value) : M unit :=
  pq_id <- prop pq (js "id") ;;
  emit (Console Log (js "[WEBHOOK_JS] pre_checkout_query received, pq_id=")) ;;
  token <- ask token_of ;;
  raw <- prop pq (js "invoice_payload") ;;
  payload <- trim_of (js_or raw (VStr (js ""))) ;;
  let ok := JsString.startsWith payload (js "premium_") in
  let body := approval_body pq_id ok in
  try_catch
    (r <- fetch (approval_request token body) ;;
     if r_ok r then
       emit (Console Log (js "[WEBHOOK_JS] answerPreCheckoutQuery ok=true sent"))
     else
       _ <- text r ;;
       emit (Console Warn (js "[WEBHOOK_JS] answerPreCheckoutQuery")))
    (fun _ =>
       emit (Console Error (js "[WEBHOOK_JS] answerPreCheckoutQuery error"))) ;;
  emit (ResStatus 200) ;;
  emit (ResJson ok_true).

(** Lines 78-92: everything else goes to the Python handler. *)
Definition forward (req : request) (update : value) : M unit :=
  try_catch
    (proxyRes <- fetch (forward_request req update) ;;
     t <- text proxyRes ;;
     emit (ResSetHeader (js "Content-Type") (js "application/json")) ;;
     emit (ResStatus (r_status proxyRes)) ;;
     emit (ResSend t))
    (fun _ =>
       emit (Console Error (js "webhook-handler fetch error")) ;;
       emit (ResStatus 502) ;;
       emit (ResJson ok_false)).

(** Lines 40-92: the three outcomes for an accepted update. *)
Definition route (req : request) (update : value) : M unit :=
  uid <- prop update (js "update_id") ;;
  emit (Console Log (js "[WEBHOOK_JS] update_id=")) ;;
  if isWarm uid then
    emit (Console Log (js "[WEBHOOK_JS] warm request, returning 200")) ;;
    emit (ResSetHeader (js "Content-Type") (js "application/json")) ;;
    emit (ResStatus 200) ;;
    emit (ResSend (JSON_stringify ok_true))
  else
    _ <- prop update (js "pre_checkout_query") ;;
    emit (Console Log (js "[WEBHOOK_JS] has pre_checkout=")) ;;
    pq <- prop update (js "pre_checkout_query") ;;
    if truthy pq then answer_pre_checkout pq else forward req update.

(** [(req.method || '').toUpperCase()] (line 8) *)
Definition method_of (req : request) : jsstring :=
  toUpperCase (or_str (req_method req) (js "")).

(** Lines 27-34: a string body is parsed, any other body is taken as
    it is; [None] where [JSON.parse] throws. *)
Definition parse_body (body : value) : option value :=
  match body with
  | VStr s => JSON_parse s
  | _ => Some body
  end.

(** The negation of the test of line 35: [update] is truthy and
    [typeof update] is ['object']. *)
Definition is_object (update : value) : bool :=
  truthy update && js_type_eqb (typeof update) TObject.

Definition bad_request : M unit :=
  emit (ResStatus 400) ;;
  emit (ResJson ok_false).

(** Line 9, the first line of every trace. *)
Definition banner : event :=
  Console Log (js "[WEBHOOK_JS] v2 DEPLOYED_FEB12").

(** [module.exports = async function handler(req, res)] *)
Definition handler (req : request) : M unit :=
  let method := method_of req in
  emit banner ;;
  if JsString.eqb method (js "GET") then
    emit (ResStatus 200) ;;
    emit (ResJson ok_true)
  else if negb (JsString.eqb method (js "POST")) then
    try_catch
      (has_writeHead <- ask res_has_writeHead ;;
       if has_writeHead then
         emit (ResWriteHead 405 [content_type_json]) ;;
         emit (ResEnd (JSON_stringify ok_false))
       else
         emit (ResStatus 405) ;;
         emit (ResJson ok_false))
      (fun _ => ret tt)
  else
    match parse_body (req_body req) with
    | None => bad_request
    | Some update =>
        if negb (is_object update) then bad_request
        else route req update
    end.

(** *** What the caller receives *)

Record response := {
  resp_status : Z;
  resp_body : jsstring
}.

(** The responses a trace of [res] calls sends.  [res.status(c)] and
    [res.writeHead(c, _)] set the status code, which starts at 200;
    [res.json(v)] sends [JSON.stringify(v)], [res.send(s)] and
    [res.end(s)] send [s]. *)
Fixpoint sent (code : Z) (tr : list event) : list response :=
  match tr with
  | [] => []
  | ResStatus c :: r => sent c r
  | ResWriteHead c _ :: r => sent c r
  | ResJson v :: r =>
      {| resp_status := code; resp_body := JSON_stringify v |} :: sent code r
  | ResSend s :: r =>
      {| resp_status := code; resp_body := s |} :: sent code r
  | ResEnd s :: r =>
      {| resp_status := code; resp_body := s |} :: sent code r
  | _ :: r => sent code r
  end.

Definition responses (tr : list event) : list response := sent 200 tr.

(** The response [code {ok: b}]. *)
Definition json_response (code : Z) (v : value) : response :=
  {| resp_status := code; resp_body := JSON_stringify v |}.

(** What one invocation sends back to its caller, and the outbound
    calls it makes. *)
Definition answered (req : request) (w : world) : list response :=
  responses (run (handler req) w).

Definition outbound (req : request) (w : world) : list out_request :=
  calls (run (handler req) w).

(** *** Reading a request the way the handler does *)

(** [v.k] where the read cannot throw. *)
Definition field (v : value) (k : jsstring) : value :=
  match get_prop v k with
  | Some x => x
  | None => VUndefined
  end.

(** [update.update_id], [update.pre_checkout_query], [pq.id] and
    [pq.invoice_payload]. *)
Definition update_id_of (update : value) : value :=
  field update (js "update_id").
Definition pre_checkout_query_of (update : value) : value :=
  field update (js "pre_checkout_query").
Definition id_of (pq : value) : value := field pq (js "id").
Definition invoice_payload_of (pq : value) : value :=
  field pq (js "invoice_payload").

(** The [pq] with which a request enters the [if (pq)] branch of line
    52, if it does: the method is POST, the body is accepted, the
    update is not a warm-up and its [pre_checkout_query] is truthy. *)
Definition pre_checkout_of (req : request) : option value :=
  if JsString.eqb (method_of req) (js "GET") then None
  else if negb (JsString.eqb (method_of req) (js "POST")) then None
  else
    match parse_body (req_body req) with
    | None => None
    | Some update =>
        if is_object update
           && negb (isWarm (update_id_of update))
           && truthy (pre_checkout_query_of update)
        then Some (pre_checkout_query_of update)
        else None
    end.

(** What lines 66-73 log about the approval call [rq]: its success, its
    refusal, or the error of a call (or of a body read) that failed. *)
Definition approval_log (w : world) (rq : out_request) : event :=
  match network w rq with
  | Some r =>
      if r_ok r then
        Console Log (js "[WEBHOOK_JS] answerPreCheckoutQuery ok=true sent")
      else
        match r_text r with
        | Some _ => Console Warn (js "[WEBHOOK_JS] answerPreCheckoutQuery")
        | None => Console Error (js "[WEBHOOK_JS] answerPreCheckoutQuery error")
        end
  | None => Console Error (js "[WEBHOOK_JS] answerPreCheckoutQuery error")
  end.

(** The string line 55 trims: [pq.invoice_payload || ''], when that is
    a string. *)
Definition payload_text (raw : value) : option jsstring :=
  match js_or raw (VStr (js "")) with
  | VStr s => Some s
  | _ => None
  end.

(** The test of lines 55-56 on that string: trimmed, it starts with
    [premium_]. *)
Definition valid_payload (s : jsstring) : bool :=
  JsString.startsWith (JsString.trim s) (js "premium_").

End Webhook.

(** *** Variations of a request, and order in a trace *)

(** The request with another body, and with another method. *)
Definition with_body (req : request) (body : value) : request :=
  {| req_method := req_method req;
     req_url := req_url req;
     req_host := req_host req;
     req_body := body |}.

Definition with_method (req : request) (m : option jsstring) : request :=
  {| req_method := m;
     req_url := req_url req;
     req_host := req_host req;
     req_body := req_body req |}.

(** The outbound calls a trace makes after it has sent a response
    ([res.json], [res.send] or [res.end]); [responded] tells whether one
    was sent before the trace. *)
Fixpoint late_calls (responded : bool) (tr : list event) : list out_request :=
  match tr with
  | [] => []
  | Fetch rq :: r =>
      if responded then rq :: late_calls responded r
      else late_calls responded r
  | ResJson _ :: r | ResSend _ :: r | ResEnd _ :: r => late_calls true r
  | _ :: r => late_calls responded r
  end.

(** ** The edge proxy *)

(** The worker's [fetch(request)]: any path but the root is forwarded to
    the generative-language API, and the answer is returned with a CORS
    header. *)
Module Proxy.

(** A [Headers] object: the header list, names in lower case. *)
Definition headers : Type := list (jsstring * jsstring).

Definition lower (name : jsstring) : jsstring :=
  List.map JsString.ascii_lower name.

Definition values_of (n : jsstring) (hs : headers) : list jsstring :=
  List.map snd (filter (fun kv => JsString.eqb (fst kv) n) hs).

(** [hs.get(name)]: the values under the name, joined by a comma and a
    space, or [null]. *)
Definition get (name : jsstring) (hs : headers) : option jsstring :=
  match values_of (lower name) hs with
  | [] => None
  | v :: vs => Some (fold_left (fun acc x => acc ++ js ", " ++ x) vs v)
  end.

Definition delete (n : jsstring) (hs : headers) : headers :=
  filter (fun kv => negb (JsString.eqb (fst kv) n)) hs.

Fixpoint set_lower (n v : jsstring) (hs : headers) : headers :=
  match hs with
  | [] => [(n, v)]
  | (k, x) :: r =>
      if JsString.eqb k n then (n, v) :: delete n r
      else (k, x) :: set_lower n v r
  end.

(** [hs.set(name, v)]: the first header of that name takes the value,
    the others go; without one the header is appended. *)
Definition set (name v : jsstring) (hs : headers) : headers :=
  set_lower (lower name) v hs.

(** [new Headers({...})] of an object literal with distinct names. *)
Definition of_literal (l : list (jsstring * jsstring)) : headers :=
  List.map (fun kv => (lower (fst kv), snd kv)) l.

(** The inbound [Request]; [new URL(request.url)] gives [pathname] and
    [search]. *)
Record request := {
  pathname : jsstring;
  search : jsstring;
  method : jsstring;
  request_headers : headers;
  request_body : option jsstring
}.

(** The [Request] handed to the global [fetch]. *)
Record proxied := {
  proxied_url : jsstring;
  proxied_method : jsstring;
  proxied_headers : headers;
  proxied_body : option jsstring
}.

Record response := {
  status : Z;
  response_headers : headers;
  body : option jsstring
}.

(** The outcome of the global [fetch]. *)
Inductive outcome :=
| Fails (message : jsstring)
| Answers (r : response).

(** What the upstream answers, and the messages of the errors the
    [Response] constructor throws. *)
Record env := {
  upstream : proxied -> outcome;
  range_error_message : jsstring;
  type_error_message : jsstring
}.

(** 101, 103, 204, 205 and 304: a response of such a status has no body. *)
Definition null_body_status (c : Z) : bool :=
  ((c =? 101) || (c =? 103) || (c =? 204) || (c =? 205) || (c =? 304))%Z.

(** [new Response(r.body, r)]: [inl message] where the constructor
    throws (a status outside 200..599; a body on a null-body status). *)
Definition rewrap (e : env) (r : response) : jsstring + response :=
  if negb ((200 <=? status r) && (status r <=? 599))%Z then
    inl (range_error_message e)
  else
    match body r with
    | Some _ =>
        if null_body_status (status r) then inl (type_error_message e)
        else inr r
    | None => inr r
    end.

Definition externalUrl : jsstring :=
  js "https://generativelanguage.googleapis.com".

(** [new Request(proxiedUrl, request)] (lines 24 and 27) *)
Definition proxiedRequest (rq : request) : proxied :=
  {| proxied_url := externalUrl ++ pathname rq ++ search rq;
     proxied_method := method rq;
     proxied_headers := request_headers rq;
     proxied_body := request_body rq |}.

Section Worker.

Context {rt : JSRuntime}.

Definition root_response : response :=
  {| status := 200;
     response_headers := of_literal [(js "Content-Type", js "application/json")];
     body := Some (JSON_stringify
                     (VObj [(js "status", VStr (js "ok"));
                            (js "message", VStr (js "Gemini API Proxy"))])) |}.

Definition preflight_response : response :=
  {| status := 200;
     response_headers :=
       of_literal
         [(js "Access-Control-Allow-Origin", js "*");
          (js "Access-Control-Allow-Methods", js "GET, POST, OPTIONS");
          (js "Access-Control-Allow-Headers", js "*")];
     body := None |}.

Definition error_response (message : jsstring) : response :=
  {| status := 500;
     response_headers := of_literal [(js "Content-Type", js "application/json")];
     body := Some (JSON_stringify (VObj [(js "error", VStr message)])) |}.

(** [async fetch(request)]: the outbound calls made and the response
    returned. *)
Definition fetch (e : env) (rq : request) : list proxied * response :=
  if JsString.eqb (pathname rq) (js "/") || JsString.eqb (pathname rq) (js "")
  then ([], root_response)
  else if JsString.eqb (method rq) (js "OPTIONS")
  then ([], preflight_response)
  else
    let proxiedRequest := proxiedRequest rq in
    ([proxiedRequest],
     match upstream e proxiedRequest with
     | Fails message => error_response message
     | Answers r =>
         match rewrap e r with
         | inl message => error_response message
         | inr newResponse =>
             {| status := status newResponse;
                response_headers :=
                  set (js "Access-Control-Allow-Origin") (js "*")
                      (response_headers newResponse);
                body := body newResponse |}
         end
     end).

End Worker.

End Proxy.

(** ** install.ps1 *)

(** The PowerShell script that installs the bot's Python dependencies.
    A native command ([python], [pip]) is an event and sets
    [$LASTEXITCODE] to its exit code, which the environment chooses;
    [Write-Host] is an event and leaves it alone.  Both commands are
    taken to exist.  Texts are the bytes of the source, with the escape
    for a line feed written [nl]. *)
Module Install.

Local Open Scope string_scope.

Inductive color := Cyan | Yellow | Red | Green | NoColor.

Inductive event :=
| WriteHost (text : string) (c : color)
| Native (exe : string) (args : list string)
| NativeSelect (exe : string) (args : list string) (pattern : string).

(** The line feed of a double-quoted string. *)
Definition nl : string := String (ascii_of_nat 10) EmptyString.

(** [$packages] (lines 22-30) *)
Definition packages : list string :=
  [ "aiogram>=3.13.0";
    "fastapi>=0.109.0";
    "httpx>=0.26.0";
    "uvicorn[standard]>=0.27.0";
    "python-multipart>=0.0.6";
    "PyPDF2>=3.0.0";
    "python-dotenv>=1.0.0" ]%list.

(** The arguments of the [pip install] of line 17 and of line 34. *)
Definition requirements_args : list string :=
  [ "install"; "--prefer-binary"; "--no-cache-dir"; "-r"; "requirements.txt" ]%list.

Definition package_args (pkg : string) : list string :=
  [ "install"; "--prefer-binary"; "--no-cache-dir"; pkg ]%list.

(** [$LASTEXITCODE -ne 0]; the variable is [$null] until a native
    command has run. *)
Definition failed (last : option Z) : bool :=
  match last with
  | Some code => negb (code =? 0)%Z
  | None => true
  end.

(** The [pip install] runs of a transcript, by their arguments, and its
    red lines. *)
Definition pip_installs (tr : list event) : list (list string) :=
  flat_map (fun e => match e with
                     | Native exe (("install" :: _)%list as args) =>
                         if String.eqb exe "pip" then [args]%list else []%list
                     | _ => []%list
                     end) tr.

Definition red_lines (tr : list event) : list string :=
  flat_map (fun e => match e with
                     | WriteHost text Red => [text]%list
                     | _ => []%list
                     end) tr.

Section Script.

(** The exit code of a native command. *)
Variable exit_code : string -> list string -> Z.

(** A statement: from [$LASTEXITCODE] to what is shown or run and the
    new [$LASTEXITCODE]. *)
Definition step : Type := option Z -> list event * option Z.

Definition write_host (text : string) (c : color) : step :=
  fun last => ([WriteHost text c]%list, last).

Definition native (exe : string) (args : list string) : step :=
  fun _ => ([Native exe args]%list, Some (exit_code exe args)).

(** [exe args | Select-String -Pattern pattern] *)
Definition native_select (exe : string) (args : list string)
    (pattern : string) : step :=
  fun _ => ([NativeSelect exe args pattern]%list, Some (exit_code exe args)).

Definition skip : step := fun last => ([]%list, last).

Definition seq (a b : step) : step :=
  fun last =>
    let (t1, last1) := a last in
    let (t2, last2) := b last1 in
    ((t1 ++ t2)%list, last2).

Definition sequence (l : list step) : step := fold_right seq skip l.

(** [if ($LASTEXITCODE -ne 0) { body }] *)
Definition if_failed (body : step) : step :=
  fun last => if failed last then body last else skip last.

(** [foreach ($x in $l) { body }] *)
Definition foreach (l : list string) (body : string -> step) : step :=
  sequence (List.map body l).

(** Lines 32-39: one turn of the loop. *)
Definition install_package (pkg : string) : step :=
  sequence
    [ write_host (nl ++ "📦 Устанавливаю: " ++ pkg) Cyan;
      native "pip" (package_args pkg);
      if_failed
        (sequence
           [ write_host ("❌ Ошибка при установке: " ++ pkg) Red;
             write_host "Попробуйте установить вручную или используйте Python 3.11/3.12" Yellow ]%list)
    ]%list.

(** The script. *)
Definition install : step :=
  sequence
    [ write_host "🔍 Проверка Python версии..." Cyan;
      native "python" ["--version"]%list;
      write_host (nl ++ "📦 Обновление pip...") Cyan;
      native "python" ["-m"; "pip"; "install"; "--upgrade"; "pip"]%list;
      write_host (nl ++ "🧹 Очистка кэша pip...") Cyan;
      native "pip" ["cache"; "purge"]%list;
      write_host (nl ++ "📥 Установка зависимостей (только готовые wheels)...") Cyan;
      write_host ("Если какой-то пакет не установится, попробуем установить его отдельно." ++ nl) Yellow;
      native "pip" requirements_args;
      if_failed
        (sequence
           [ write_host (nl ++ "⚠️  Установка с --prefer-binary не удалась. Пробуем установить пакеты по одному...") Yellow;
             foreach packages install_package ]%list);
      write_host (nl ++ "✅ Проверка установленных пакетов...") Green;
      native_select "pip" ["list"]%list
        "aiogram|fastapi|httpx|uvicorn|PyPDF2|python-dotenv|multipart";
      write_host "" NoColor;
      write_host "✨ Готово! Теперь можно запустить бота:" Green;
      write_host "   python careerai_bot_mvp.py" Cyan
    ]%list.

(** What a run shows and runs, from a given [$LASTEXITCODE]. *)
Definition transcript (last : option Z) : list event := fst (install last).

(** *** The transcript in parts *)

(** Lines 4-17, up to the first [pip install]. *)
Definition opening : list event :=
  [ WriteHost "🔍 Проверка Python версии..." Cyan;
    Native "python" ["--version"]%list;
    WriteHost (nl ++ "📦 Обновление pip...") Cyan;
    Native "python" ["-m"; "pip"; "install"; "--upgrade"; "pip"]%list;
    WriteHost (nl ++ "🧹 Очистка кэша pip...") Cyan;
    Native "pip" ["cache"; "purge"]%list;
    WriteHost (nl ++ "📥 Установка зависимостей (только готовые wheels)...") Cyan;
    WriteHost ("Если какой-то пакет не установится, попробуем установить его отдельно." ++ nl) Yellow;
    Native "pip" requirements_args ]%list.

(** Lines 42-47, the check of what is installed and the closing lines. *)
Definition closing : list event :=
  [ WriteHost (nl ++ "✅ Проверка установленных пакетов...") Green;
    NativeSelect "pip" ["list"]%list
      "aiogram|fastapi|httpx|uvicorn|PyPDF2|python-dotenv|multipart";
    WriteHost "" NoColor;
    WriteHost "✨ Готово! Теперь можно запустить бота:" Green;
    WriteHost "   python careerai_bot_mvp.py" Cyan ]%list.

Definition failure_line (pkg : string) : string :=
  "❌ Ошибка при установке: " ++ pkg.

(** What one turn of the loop shows and runs. *)
Definition package_events (pkg : string) : list event :=
  ([ WriteHost (nl ++ "📦 Устанавливаю: " ++ pkg) Cyan;
     Native "pip" (package_args pkg) ]
   ++ (if (exit_code "pip" (package_args pkg) =? 0)%Z then []
       else [ WriteHost (failure_line pkg) Red;
              WriteHost "Попробуйте установить вручную или используйте Python 3.11/3.12" Yellow ]))%list.

(** The packages whose own [pip install] fails. *)
Definition failing_packages : list string :=
  filter (fun pkg => negb (exit_code "pip" (package_args pkg) =? 0)%Z) packages.

End Script.

End Install.

(** ** A runtime for concrete runs *)

(** A small stand-in for the JavaScript runtime, used to run the handler
    on concrete requests.  [toUpperCase] is the ASCII upper-casing, exact
    on the ASCII strings HTTP methods are.  [stringify] prints objects,
    arrays, strings without control characters, booleans, [null] and
    whole numbers below 10^21 the way [JSON.stringify] does (a property
    whose value is [undefined] is left out, a number that is not finite
    prints as [null]); it does not print other numbers.  [parse] reads
    back the texts of [corpus] and rejects every other string. *)
Module TestRuntime.

Fixpoint digits (u : Decimal.uint) : jsstring :=
  match u with
  | Decimal.Nil => []
  | Decimal.D0 r => 48%N :: digits r
  | Decimal.D1 r => 49%N :: digits r
  | Decimal.D2 r => 50%N :: digits r
  | Decimal.D3 r => 51%N :: digits r
  | Decimal.D4 r => 52%N :: digits r
  | Decimal.D5 r => 53%N :: digits r
  | Decimal.D6 r => 54%N :: digits r
  | Decimal.D7 r => 55%N :: digits r
  | Decimal.D8 r => 56%N :: digits r
  | Decimal.D9 r => 57%N :: digits r
  end.

Definition number (f : float) : jsstring :=
  match Prim2SF f with
  | S754_zero _ => js "0"
  | S754_finite neg m e =>
      let n := Z.shiftl (Zpos m) e in
      if ((Z.shiftl n (- e) =? Zpos m) && (n <? 10 ^ 21))%Z then
        (if neg then js "-" else []) ++ digits (N.to_uint (Z.to_N n))
      else js "null"
  | _ => js "null"
  end.

Definition quote (s : jsstring) : jsstring :=
  [34%N] ++ flat_map (fun c => if ((c =? 34) || (c =? 92))%N
                             then [92%N; c] else [c]) s ++ [34%N].

Fixpoint join (parts : list jsstring) : jsstring :=
  match parts with
  | [] => []
  | [x] => x
  | x :: r => x ++ js "," ++ join r
  end.

Fixpoint stringify (v : value) : jsstring :=
  match v with
  | VUndefined | VNull => js "null"
  | VBool true => js "true"
  | VBool false => js "false"
  | VNum f => number f
  | VStr s => quote s
  | VArr items => js "[" ++ join (List.map stringify items) ++ js "]"
  | VObj props =>
      js "{"
      ++ join (flat_map
                 (fun kv : jsstring * value => let (k, x) := kv in
                            match x with
                            | VUndefined => @nil jsstring
                            | _ => [quote k ++ js ":" ++ stringify x]
                            end) props)
      ++ js "}"
  end.

Definition corpus : list value :=
  [ VObj [(js "update_id", VNum 0%float)];
    VObj [(js "update_id", VStr (js "0"))];
    VObj [(js "update_id", VNum 7%float);
          (js "message", VObj [(js "text", VStr (js "hi"))])];
    VNum 5%float;
    VNull ].

Definition parse (s : jsstring) : option value :=
  find (fun v => JsString.eqb (stringify v) s) corpus.

Definition runtime : JSRuntime :=
  {| toUpperCase := List.map JsString.ascii_upper;
     JSON_parse := parse;
     JSON_stringify := stringify;
     toUpperCase_ascii := fun _ _ => eq_refl |}.

End TestRuntime.

(** The same runtime with a [parse] that, like [JSON.parse], skips the
    white space of JSON (space, tab, line feed, carriage return) before
    and after the value. *)
Module LenientRuntime.

Definition json_blank (c : N) : bool :=
  ((c =? 32) || (c =? 9) || (c =? 10) || (c =? 13))%N.

Fixpoint skip_blanks (s : jsstring) : jsstring :=
  match s with
  | [] => []
  | c :: r => if json_blank c then skip_blanks r else s
  end.

Definition parse (s : jsstring) : option value :=
  TestRuntime.parse (rev (skip_blanks (rev (skip_blanks s)))).

Definition runtime : JSRuntime :=
  {| toUpperCase := List.map JsString.ascii_upper;
     JSON_parse := parse;
     JSON_stringify := TestRuntime.stringify;
     toUpperCase_ascii := fun _ _ => eq_refl |}.

End LenientRuntime.


(** ** Concrete requests and worlds *)

Module Examples.

Definition reply (code : Z) (body : string) : option fetch_response :=
  Some {| r_status := code; r_text := Some (js body) |}.

(** Every outbound call is answered [200 {}]. *)
Definition w_ok : world :=
  {| env_BOT_TOKEN := Some (js "123:ABC");
     res_has_writeHead := true;
     network := fun _ => reply 200 "{}" |}.

(** Every outbound call fails. *)
Definition w_down : world :=
  {| env_BOT_TOKEN := Some (js "123:ABC");
     res_has_writeHead := true;
     network := fun _ => None |}.

(** Every outbound call is answered [500 oops]. *)
Definition w_500 : world :=
  {| env_BOT_TOKEN := None;
     res_has_writeHead := false;
     network := fun _ => reply 500 "oops" |}.

Definition post (body : value) : request :=
  {| req_method := Some (js "POST");
     req_url := js "/api/webhook";
     req_host := Some (js "bot.example");
     req_body := body |}.

(** [{update_id: 5, pre_checkout_query: {id: 'q1', invoice_payload}}] *)
Definition pre_checkout (payload : value) : value :=
  VObj [(js "update_id", VNum 5%float);
        (js "pre_checkout_query",
         VObj [(js "id", VStr (js "q1")); (js "invoice_payload", payload)])].

(** [{update_id: 7, message: {text: 'hi'}}] *)
Definition message : value :=
  VObj [(js "update_id", VNum 7%float);
        (js "message", VObj [(js "text", VStr (js "hi"))])].

(** [{update_id: '0', pre_checkout_query: {id: 'q1', invoice_payload: 'premium_1'}}] *)
Definition warm_with_pre_checkout : value :=
  VObj [(js "update_id", VStr (js "0"));
        (js "pre_checkout_query",
         VObj [(js "id", VStr (js "q1"));
               (js "invoice_payload", VStr (js "premium_1"))])].


Definition get_request : request :=
  {| req_method := Some (js "GET");
     req_url := js "/api/webhook";
     req_host := None;
     req_body := VStr (js "not json") |}.

(** A request to the proxy and two upstreams. *)
Definition generate : Proxy.request :=
  {| Proxy.pathname := js "/v1beta/models/gemini-pro:generateContent";
     Proxy.search := js "?key=K";
     Proxy.method := js "POST";
     Proxy.request_headers := [(js "content-type", js "application/json")];
     Proxy.request_body := Some (js "{}") |}.

Definition upstream_ok : Proxy.env :=
  {| Proxy.upstream := fun _ =>
       Proxy.Answers {| Proxy.status := 200;
                        Proxy.response_headers :=
                          [(js "content-type", js "application/json");
                           (js "access-control-allow-origin", js "https://a.example")];
                        Proxy.body := Some (js "{}") |};
     Proxy.range_error_message := js "status out of range";
     Proxy.type_error_message := js "null body status" |}.

Definition upstream_down : Proxy.env :=
  {| Proxy.upstream := fun _ => Proxy.Fails (js "network down");
     Proxy.range_error_message := js "status out of range";
     Proxy.type_error_message := js "null body status" |}.

End Examples.

(** ** More concrete requests *)

Module MoreExamples.

Definition put_request : request :=
  {| req_method := Some (js "PUT");
     req_url := js "/api/webhook";
     req_host := Some (js "bot.example");
     req_body := Examples.message |}.

Definition no_method_request : request :=
  {| req_method := None;
     req_url := js "/api/webhook";
     req_host := None;
     req_body := Examples.message |}.

(** An OPTIONS request to the root path of the proxy, and one to an API
    path. *)
Definition root_options : Proxy.request :=
  {| Proxy.pathname := js "/";
     Proxy.search := js "";
     Proxy.method := js "OPTIONS";
     Proxy.request_headers := [];
     Proxy.request_body := None |}.

Definition preflight : Proxy.request :=
  {| Proxy.pathname := js "/v1beta/models";
     Proxy.search := js "";
     Proxy.method := js "OPTIONS";
     Proxy.request_headers := [(js "origin", js "https://a.example")];
     Proxy.request_body := None |}.

(** An upstream that answers with a status the [Response] constructor
    refuses. *)
Definition upstream_101 : Proxy.env :=
  {| Proxy.upstream := fun _ =>
       Proxy.Answers {| Proxy.status := 101;
                        Proxy.response_headers := [];
                        Proxy.body := None |};
     Proxy.range_error_message := js "status out of range";
     Proxy.type_error_message := js "null body status" |}.

(** Exit codes: every command succeeds; and the install from
    [requirements.txt] fails, as do those of [uvicorn] and [PyPDF2]. *)
Definition all_succeed (exe : string) (args : list string) : Z := 0.

Definition some_fail (exe : string) (args : list string) : Z :=
  if list_eq_dec string_dec args Install.requirements_args then 1
  else if list_eq_dec string_dec args
            (Install.package_args "uvicorn[standard]>=0.27.0") then 2
  else if list_eq_dec string_dec args
            (Install.package_args "PyPDF2>=3.0.0") then 1
  else 0.

(** The text of [Examples.message] after a space: a body as a client
    may send it, with white space that [JSON.stringify] does not write. *)
Definition spaced_message : jsstring :=
  32%N :: TestRuntime.stringify Examples.message.

End MoreExamples.

(** * Properties *)

(** ** Strings *)

Lemma eqb_refl (s : jsstring) : JsString.eqb s s = true.
Proof.
  induction s as [|c s IH]; simpl; [reflexivity|].
  now rewrite N.eqb_refl, IH.
Qed.

Lemma eqb_eq (a b : jsstring) : JsString.eqb a b = true <-> a = b.
Proof.
  split.
  - revert b; induction a as [|c a IH]; intros [|d b] H; simpl in H;
      try discriminate; [reflexivity|].
    apply andb_true_iff in H as [Hc Hr].
    apply N.eqb_eq in Hc. apply IH in Hr. now subst.
  - intros ->. apply eqb_refl.
Qed.

(** ** The webhook handler, path by path *)

Section WebhookPaths.

Context {rt : JSRuntime}.

Variable req : request.
Variable w : world.

Lemma object_readable (u : value) (k : jsstring) :
  is_object u = true -> get_prop u k = Some (field u k).
Proof. unfold is_object, field; destruct u; simpl; intros H; try discriminate; reflexivity. Qed.

Lemma truthy_readable (v : value) (k : jsstring) :
  truthy v = true -> get_prop v k = Some (field v k).
Proof. unfold field; destruct v; simpl; intros H; try discriminate; reflexivity. Qed.

(** Only an object has a field that is not [undefined]. *)
Lemma has_field_object (u : value) (k : jsstring) :
  field u k <> VUndefined -> is_object u = true.
Proof. destruct u; unfold field; simpl; intros H; try reflexivity; now elim H. Qed.

Lemma handler_get :
  method_of req = js "GET" ->
  handler req w = ([banner; ResStatus 200; ResJson ok_true], Returned tt).
Proof.
  intros Hm. unfold handler. rewrite Hm. reflexivity.
Qed.

Lemma handler_other_method :
  JsString.eqb (method_of req) (js "GET") = false ->
  JsString.eqb (method_of req) (js "POST") = false ->
  handler req w =
    (if res_has_writeHead w
     then [banner; ResWriteHead 405 [content_type_json];
           ResEnd (JSON_stringify ok_false)]
     else [banner; ResStatus 405; ResJson ok_false],
     Returned tt).
Proof.
  intros Hg Hp. unfold handler. rewrite Hg, Hp. simpl.
  unfold bind, try_catch, ask, emit. simpl.
  destruct (res_has_writeHead w); reflexivity.
Qed.

Lemma handler_post (m : M unit) :
  method_of req = js "POST" ->
  (match parse_body (req_body req) with
   | None => bad_request
   | Some update =>
       if negb (is_object update) then bad_request else route req update
   end) = m ->
  handler req w = (banner :: fst (m w), snd (m w)).
Proof.
  intros Hm <-. unfold handler. rewrite Hm.
  replace (JsString.eqb (js "POST") (js "GET")) with false by reflexivity.
  replace (JsString.eqb (js "POST") (js "POST")) with true by reflexivity.
  simpl negb. cbv iota.
  unfold bind at 1. unfold emit at 1.
  destruct (match parse_body (req_body req) with
            | Some update => if negb (is_object update) then bad_request else route req update
            | None => bad_request end w) as [t c].
  reflexivity.
Qed.

Lemma handler_bad_request :
  method_of req = js "POST" ->
  match parse_body (req_body req) with
  | None => True
  | Some update => is_object update = false
  end ->
  handler req w = ([banner; ResStatus 400; ResJson ok_false], Returned tt).
Proof.
  intros Hm Hb.
  rewrite (handler_post bad_request Hm); [reflexivity|].
  destruct (parse_body (req_body req)) as [u|]; [|reflexivity].
  now rewrite Hb.
Qed.

Lemma handler_route (u : value) :
  method_of req = js "POST" ->
  parse_body (req_body req) = Some u ->
  is_object u = true ->
  handler req w = (banner :: fst (route req u w), snd (route req u w)).
Proof.
  intros Hm Hp Ho.
  apply (handler_post _ Hm). now rewrite Hp, Ho.
Qed.

(** The two log lines every accepted update leaves first. *)
Lemma route_warm (u : value) :
  is_object u = true ->
  isWarm (update_id_of u) = true ->
  route req u w =
    ([Console Log (js "[WEBHOOK_JS] update_id=");
      Console Log (js "[WEBHOOK_JS] warm request, returning 200");
      ResSetHeader (js "Content-Type") (js "application/json");
      ResStatus 200;
      ResSend (JSON_stringify ok_true)], Returned tt).
Proof.
  intros Ho Hw. unfold route, prop.
  rewrite (object_readable u _ Ho). fold (update_id_of u).
  unfold bind, ret, emit. simpl. rewrite Hw. reflexivity.
Qed.

Lemma route_branch (u : value) :
  is_object u = true ->
  isWarm (update_id_of u) = false ->
  let next := if truthy (pre_checkout_query_of u)
              then answer_pre_checkout (pre_checkout_query_of u)
              else forward req u in
  route req u w =
    (Console Log (js "[WEBHOOK_JS] update_id=")
     :: Console Log (js "[WEBHOOK_JS] has pre_checkout=")
     :: fst (next w), snd (next w)).
Proof.
  intros Ho Hw next. unfold route, prop.
  rewrite !(object_readable u _ Ho).
  fold (update_id_of u). fold (pre_checkout_query_of u).
  unfold bind at 1, ret at 1. unfold bind at 1, emit at 1.
  rewrite Hw.
  unfold bind at 1, ret at 1. unfold bind at 1, emit at 1.
  unfold bind at 1, ret at 1.
  fold next. destruct (next w) as [t c]. reflexivity.
Qed.

Lemma forward_trace (u : value) :
  forward req u w =
    (Fetch (forward_request req u) ::
     match network w (forward_request req u) with
     | Some {| r_status := code; r_text := Some t |} =>
         [ResSetHeader (js "Content-Type") (js "application/json");
          ResStatus code; ResSend t]
     | _ =>
         [Console Error (js "webhook-handler fetch error");
          ResStatus 502; ResJson ok_false]
     end, Returned tt).
Proof.
  unfold forward, try_catch, fetch, text, bind, emit, ask, ret, throw.
  simpl.
  destruct (network w (forward_request req u)) as [[code [t|]]|];
    reflexivity.
Qed.

Lemma answer_pre_checkout_trace (pq : value) (s : jsstring) :
  truthy pq = true ->
  payload_text (invoice_payload_of pq) = Some s ->
  let ok := valid_payload s in
  let rq := approval_request (token_of w) (approval_body (id_of pq) ok) in
  answer_pre_checkout pq w =
    ([Console Log (js "[WEBHOOK_JS] pre_checkout_query received, pq_id=");
      Fetch rq; approval_log w rq; ResStatus 200; ResJson ok_true],
     Returned tt).
Proof.
  intros Ht Hs ok rq. unfold valid_payload in ok.
  unfold answer_pre_checkout, prop.
  rewrite !(truthy_readable pq _ Ht).
  fold (id_of pq). fold (invoice_payload_of pq).
  unfold payload_text in Hs.
  unfold try_catch, fetch, text, bind, emit, ask, ret, throw.
  cbv beta iota.
  destruct (js_or (invoice_payload_of pq) (VStr (js ""))) as [| | | |s'| |];
    try discriminate.
  injection Hs as ->.
  unfold trim_of. simpl. fold ok. fold rq.
  unfold approval_log.
  destruct (network w rq) as [[code [t|]]|]; simpl;
    try destruct (r_ok _); reflexivity.
Qed.

Lemma answer_pre_checkout_throws (pq : value) :
  truthy pq = true ->
  payload_text (invoice_payload_of pq) = None ->
  answer_pre_checkout pq w =
    ([Console Log (js "[WEBHOOK_JS] pre_checkout_query received, pq_id=")],
     Threw TypeError).
Proof.
  intros Ht Hs. unfold answer_pre_checkout, prop.
  rewrite !(truthy_readable pq _ Ht).
  fold (id_of pq). fold (invoice_payload_of pq).
  unfold payload_text in Hs.
  unfold try_catch, fetch, text, bind, emit, ask, ret, throw.
  cbv beta iota.
  destruct (js_or (invoice_payload_of pq) (VStr (js ""))) as [| | | |s'| |];
    try discriminate; reflexivity.
Qed.

End WebhookPaths.

(** ** The webhook handler: the claims *)

Section WebhookClaims.

Context {rt : JSRuntime}.

(** On an ASCII [req.method] the normalised method is its ASCII
    upper-casing; so a request whose method is literally [GET] has the
    normalised method [GET]. *)
Lemma method_of_ascii (req : request) (m : jsstring) :
  req_method req = Some m ->
  forallb JsString.is_ascii m = true ->
  method_of req = List.map JsString.ascii_upper m.
Proof.
  intros Hm Ha. unfold method_of, or_str. rewrite Hm.
  destruct m as [|c m]; simpl JsString.is_empty; cbv iota.
  - apply (toUpperCase_ascii (js "")). reflexivity.
  - now apply toUpperCase_ascii.
Qed.

Lemma method_of_GET (req : request) :
  req_method req = Some (js "GET") -> method_of req = js "GET".
Proof.
  intros Hm. rewrite (method_of_ascii req (js "GET") Hm); reflexivity.
Qed.

(** C8: a request whose method is GET is answered [200 {ok:true}],
    whatever its body (and its host, and the world around it); no
    outbound call is made. *)
Theorem get_responds_ok (req : request) (w : world) :
  method_of req = js "GET" ->
  answered req w = [json_response 200 ok_true]
  /\ outbound req w = []
  /\ result (handler req) w = Returned tt.
Proof.
  intros Hm. unfold answered, outbound, run, result.
  rewrite (handler_get req w Hm). repeat split.
Qed.

(** C2: a POST whose body parses to an object with [update_id] equal to
    the number [0] or the string ['0'] is answered [200 {ok:true}] and
    makes no outbound call, whatever else the update holds (a
    [pre_checkout_query] included). *)
Theorem warmup_makes_no_call (req : request) (w : world) (u : value) :
  method_of req = js "POST" ->
  parse_body (req_body req) = Some u ->
  strict_eq_num (update_id_of u) 0%float = true
  \/ strict_eq_str (update_id_of u) (js "0") = true ->
  answered req w = [json_response 200 ok_true]
  /\ outbound req w = [].
Proof.
  intros Hm Hb Hz. unfold answered, outbound, run.
  assert (Ho : is_object u = true).
  { apply (has_field_object u (js "update_id")). fold (update_id_of u).
    destruct Hz as [Hz|Hz]; intros E; rewrite E in Hz; discriminate. }
  rewrite (handler_route req w u Hm Hb Ho).
  rewrite route_warm; [split; reflexivity | assumption |].
  unfold isWarm. apply orb_true_iff. exact Hz.
Qed.

(** C3 (amended): a POST whose update is neither a warm-up nor a
    pre-checkout makes exactly one outbound call, a POST with the JSON
    content type to [/api/webhook-handler] on the request's host, whose
    body is [JSON.stringify] of the update: of the body itself when it
    arrived parsed, of what [JSON.parse] made of it when it arrived as a
    string.  The caller receives the downstream status and body text as
    they are, and [502 {ok:false}] when the call (or the reading of its
    body) fails. *)
Theorem forward_mirrors_downstream (req : request) (w : world) (u : value) :
  method_of req = js "POST" ->
  parse_body (req_body req) = Some u ->
  is_object u = true ->
  isWarm (update_id_of u) = false ->
  truthy (pre_checkout_query_of u) = false ->
  outbound req w
  = [{| rq_url := js "https://"
                  ++ or_str (req_host req) (js "careeraibot.vercel.app")
                  ++ js "/api/webhook-handler";
        rq_method := js "POST";
        rq_headers := [(js "Content-Type", js "application/json")];
        rq_body := JSON_stringify u |}]
  /\ (typeof (req_body req) <> TString -> u = req_body req)
  /\ (forall s, req_body req = VStr s -> JSON_parse s = Some u)
  /\ (forall code t,
        network w (forward_request req u)
        = Some {| r_status := code; r_text := Some t |} ->
        answered req w = [{| resp_status := code; resp_body := t |}])
  /\ (network w (forward_request req u) = None ->
      answered req w = [json_response 502 ok_false])
  /\ (forall code,
        network w (forward_request req u)
        = Some {| r_status := code; r_text := None |} ->
        answered req w = [json_response 502 ok_false]).
Proof.
  intros Hm Hb Ho Hw Hq. unfold answered, outbound, run.
  rewrite (handler_route req w u Hm Hb Ho).
  rewrite (route_branch req w u Ho Hw). rewrite Hq.
  rewrite forward_trace. cbn [fst].
  split; [|split; [|split]].
  - change (calls (banner
                   :: Console Log (js "[WEBHOOK_JS] update_id=")
                   :: Console Log (js "[WEBHOOK_JS] has pre_checkout=")
                   :: Fetch (forward_request req u)
                   :: match network w (forward_request req u) with
                      | Some {| r_status := code; r_text := Some t |} =>
                          [ResSetHeader (js "Content-Type") (js "application/json");
                           ResStatus code; ResSend t]
                      | _ =>
                          [Console Error (js "webhook-handler fetch error");
                           ResStatus 502; ResJson ok_false]
                      end)
            = [forward_request req u]).
    cbn -[forward_request].
    destruct (network w (forward_request req u)) as [[code [t|]]|];
      reflexivity.
  - intros Hs. destruct (req_body req); simpl in Hb;
      try (now injection Hb as <-). now elim Hs.
  - intros s Hs. rewrite Hs in Hb. exact Hb.
  - repeat split; intros; rewrite H; reflexivity.
Qed.

(** C5: a POST whose body is a string that [JSON.parse] rejects, or
    whose (parsed) body is not an object, is answered [400 {ok:false}]
    and makes no outbound call. *)
Theorem unparseable_body_rejected (req : request) (w : world) :
  method_of req = js "POST" ->
  (exists s, req_body req = VStr s /\ JSON_parse s = None)
  \/ (exists u, parse_body (req_body req) = Some u /\ is_object u = false) ->
  answered req w = [json_response 400 ok_false]
  /\ outbound req w = [].
Proof.
  intros Hm Hb. unfold answered, outbound, run.
  rewrite (handler_bad_request req w Hm); [split; reflexivity|].
  destruct Hb as [(s & Hs & Hp) | (u & Hp & Ho)].
  - rewrite Hs. simpl. now rewrite Hp.
  - now rewrite Hp.
Qed.

(** The pre-checkout branch, when the payload can be trimmed: the whole
    trace. *)
Lemma pre_checkout_trace (req : request) (w : world) (u : value) (s : jsstring) :
  method_of req = js "POST" ->
  parse_body (req_body req) = Some u ->
  isWarm (update_id_of u) = false ->
  truthy (pre_checkout_query_of u) = true ->
  payload_text (invoice_payload_of (pre_checkout_query_of u)) = Some s ->
  handler req w =
    ([banner;
      Console Log (js "[WEBHOOK_JS] update_id=");
      Console Log (js "[WEBHOOK_JS] has pre_checkout=");
      Console Log (js "[WEBHOOK_JS] pre_checkout_query received, pq_id=");
      Fetch (approval_request (token_of w)
               (approval_body (id_of (pre_checkout_query_of u))
                  (valid_payload s)));
      approval_log w
        (approval_request (token_of w)
           (approval_body (id_of (pre_checkout_query_of u))
              (valid_payload s)));
      ResStatus 200; ResJson ok_true], Returned tt).
Proof.
  intros Hm Hb Hw Hq Hs.
  assert (Ho : is_object u = true).
  { apply (has_field_object u (js "pre_checkout_query")).
    fold (pre_checkout_query_of u). intros E. rewrite E in Hq. discriminate. }
  rewrite (handler_route req w u Hm Hb Ho).
  rewrite (route_branch req w u Ho Hw). rewrite Hq.
  rewrite (answer_pre_checkout_trace w _ s Hq Hs). reflexivity.
Qed.

(** The same branch when the payload cannot be trimmed: the handler
    throws before it calls out or answers. *)
Lemma pre_checkout_throws (req : request) (w : world) (u : value) :
  method_of req = js "POST" ->
  parse_body (req_body req) = Some u ->
  isWarm (update_id_of u) = false ->
  truthy (pre_checkout_query_of u) = true ->
  payload_text (invoice_payload_of (pre_checkout_query_of u)) = None ->
  handler req w =
    ([banner;
      Console Log (js "[WEBHOOK_JS] update_id=");
      Console Log (js "[WEBHOOK_JS] has pre_checkout=");
      Console Log (js "[WEBHOOK_JS] pre_checkout_query received, pq_id=")],
     Threw TypeError).
Proof.
  intros Hm Hb Hw Hq Hs.
  assert (Ho : is_object u = true).
  { apply (has_field_object u (js "pre_checkout_query")).
    fold (pre_checkout_query_of u). intros E. rewrite E in Hq. discriminate. }
  rewrite (handler_route req w u Hm Hb Ho).
  rewrite (route_branch req w u Ho Hw). rewrite Hq.
  rewrite (answer_pre_checkout_throws w _ Hq Hs). reflexivity.
Qed.




(** X22: in the pre-checkout branch, when [invoice_payload] is
    a string or falsy, the caller is answered [200 {ok:true}] and the
    handler returns normally whatever becomes of the approval call (it
    succeeds, it is refused, it fails, its body cannot be read); the
    outcome only chooses the line that is logged. *)
Theorem approval_failure_not_surfaced (req : request) (w : world) (u : value)
    (s : jsstring) :
  method_of req = js "POST" ->
  parse_body (req_body req) = Some u ->
  isWarm (update_id_of u) = false ->
  truthy (pre_checkout_query_of u) = true ->
  payload_text (invoice_payload_of (pre_checkout_query_of u)) = Some s ->
  answered req w = [json_response 200 ok_true]
  /\ result (handler req) w = Returned tt
  /\ exists rq level line,
       In (Fetch rq) (run (handler req) w)
       /\ approval_log w rq = Console level line
       /\ In (Console level line) (run (handler req) w).
Proof.
  intros Hm Hb Hw Hq Hs. unfold answered, result, run.
  rewrite (pre_checkout_trace req w u s Hm Hb Hw Hq Hs).
  set (rq := approval_request _ _).
  assert (Hlog : exists level line, approval_log w rq = Console level line).
  { unfold approval_log.
    destruct (network w rq) as [[code [t|]]|]; try destruct (r_ok _);
      do 2 eexists; reflexivity. }
  destruct Hlog as (level & line & Hlog).
  split; [|split].
  - cbn [fst banner]. rewrite Hlog. reflexivity.
  - reflexivity.
  - exists rq, level, line. cbn [fst]. rewrite Hlog.
    split; [|split]; [|reflexivity|]; simpl; tauto.
Qed.


(** Every way an invocation can end, by what the caller receives. *)
Lemma answered_cases (req : request) (w : world) :
  answered req w = [json_response 200 ok_true]
  \/ answered req w = [json_response 405 ok_false]
  \/ answered req w = [json_response 400 ok_false]
  \/ answered req w = [json_response 502 ok_false]
  \/ (exists u code t,
        parse_body (req_body req) = Some u
        /\ network w (forward_request req u)
           = Some {| r_status := code; r_text := Some t |}
        /\ answered req w = [{| resp_status := code; resp_body := t |}])
  \/ (exists pq,
        pre_checkout_of req = Some pq
        /\ payload_text (invoice_payload_of pq) = None
        /\ answered req w = []).
Proof.
  unfold answered, run, pre_checkout_of.
  destruct (JsString.eqb (method_of req) (js "GET")) eqn:Hg.
  { apply eqb_eq in Hg. rewrite (handler_get req w Hg). now left. }
  destruct (JsString.eqb (method_of req) (js "POST")) eqn:Hp.
  2:{ rewrite (handler_other_method req w Hg Hp).
      right; left. destruct (res_has_writeHead w); reflexivity. }
  apply eqb_eq in Hp. cbn [negb].
  destruct (parse_body (req_body req)) as [u|] eqn:Hb.
  2:{ rewrite (handler_bad_request req w Hp); [|now rewrite Hb].
      right; right; now left. }
  destruct (is_object u) eqn:Ho.
  2:{ rewrite (handler_bad_request req w Hp); [|now rewrite Hb].
      right; right; now left. }
  rewrite (handler_route req w u Hp Hb Ho).
  destruct (isWarm (update_id_of u)) eqn:Hw.
  { rewrite (route_warm req w u Ho Hw). now left. }
  rewrite (route_branch req w u Ho Hw).
  destruct (truthy (pre_checkout_query_of u)) eqn:Hq.
  - destruct (payload_text (invoice_payload_of (pre_checkout_query_of u)))
      as [s|] eqn:Hs.
    + rewrite (answer_pre_checkout_trace w _ s Hq Hs). left.
      cbn [fst]. unfold approval_log.
      destruct (network w _) as [[code [t|]]|]; try destruct (r_ok _);
        reflexivity.
    + rewrite (answer_pre_checkout_throws w _ Hq Hs).
      do 5 right. exists (pre_checkout_query_of u). now repeat split.
  - rewrite forward_trace. cbn [fst].
    destruct (network w (forward_request req u)) as [[code [t|]]|] eqn:Hn.
    + do 4 right; left. exists u, code, t. now repeat split.
    + right; right; right; now left.
    + right; right; right; now left.
Qed.

(** X23: every request that does not enter the pre-checkout
    branch with an [invoice_payload] that is truthy and not a string
    gets exactly one response, on each path: GET, another method, a
    rejected body, a warm-up, a pre-checkout, a forward that succeeds
    and one that fails. *)
Theorem exactly_one_response (req : request) (w : world) :
  (forall pq, pre_checkout_of req = Some pq ->
              payload_text (invoice_payload_of pq) <> None) ->
  List.length (answered req w) = 1.
Proof.
  intros Hpq.
  destruct (answered_cases req w)
    as [H|[H|[H|[H|[(u & code & t & _ & _ & H)|(pq & Hp & Hs & _)]]]]];
    try (rewrite H; reflexivity).
  elim (Hpq pq Hp Hs).
Qed.

(** C7 (amended): the status code of a response of the handler is 200,
    400, 405 or 502, or it is the status code of the downstream
    handler's response, which the forward path passes on as it is. *)
Theorem status_codes (req : request) (w : world) (r : response) :
  In r (answered req w) ->
  In (resp_status r) [200; 400; 405; 502]%Z
  \/ exists u downstream,
       parse_body (req_body req) = Some u
       /\ network w (forward_request req u) = Some downstream
       /\ resp_status r = r_status downstream.
Proof.
  intros Hr.
  destruct (answered_cases req w)
    as [H|[H|[H|[H|[(u & code & t & Hb & Hn & H)|(pq & _ & _ & H)]]]]];
    rewrite H in Hr; simpl in Hr;
    [destruct Hr as [<-|[]] .. | destruct Hr];
    try (left; simpl; tauto).
  right. exists u. eexists. split; [exact Hb|]. split; [exact Hn|]. reflexivity.
Qed.

End WebhookClaims.

(** ** The edge proxy *)

Module ProxyFacts.

Import Proxy.




Section Claims.

Context {rt : JSRuntime}.

(** What the [Response] constructor accepts: a status from 200 to
    599, and no body on a status that has none. *)
Lemma rewrap_accepts (e : env) (r : response) :
  (200 <= status r <= 599)%Z ->
  (null_body_status (status r) = true -> body r = None) ->
  rewrap e r = inr r.
Proof.
  intros [Hlo Hhi] Hnull. unfold rewrap.
  apply Z.leb_le in Hlo. apply Z.leb_le in Hhi. rewrite Hlo, Hhi.
  cbn [andb negb].
  destruct (body r) as [b|]; [|reflexivity].
  destruct (null_body_status (status r)); [|reflexivity].
  now specialize (Hnull eq_refl).
Qed.


(** When the forwarded call fails, the caller receives the 500 error
    response. *)
Lemma proxy_upstream_failure (e : env) (rq : request) (message : jsstring) :
  pathname rq <> js "/" ->
  pathname rq <> js "" ->
  method rq <> js "OPTIONS" ->
  upstream e (proxiedRequest rq) = Fails message ->
  fetch e rq = ([proxiedRequest rq], error_response message).
Proof.
  intros Hroot Hempty Hopt Hup. unfold fetch.
  destruct (JsString.eqb (pathname rq) (js "/")) eqn:E1.
  { apply eqb_eq in E1. contradiction. }
  destruct (JsString.eqb (pathname rq) (js "")) eqn:E2.
  { apply eqb_eq in E2. contradiction. }
  destruct (JsString.eqb (method rq) (js "OPTIONS")) eqn:E3.
  { apply eqb_eq in E3. contradiction. }
  cbn [orb]. now rewrite Hup.
Qed.

End Claims.

End ProxyFacts.

(** * Concrete runs *)

(** The theorems above at concrete requests, and the requests at which a
    claim of the specification fails.  All runs use [TestRuntime.runtime]. *)

#[local] Existing Instance TestRuntime.runtime.

Import Examples.

Lemma get_responds_ok_witness :
  method_of get_request = js "GET"
  /\ answered get_request w_down = [json_response 200 ok_true]
  /\ outbound get_request w_down = []
  /\ result (handler get_request) w_down = Returned tt.
Proof.
  split; [reflexivity|].
  apply (get_responds_ok get_request w_down). reflexivity.
Defined.

Lemma warmup_makes_no_call_witness :
  method_of (post warm_with_pre_checkout) = js "POST"
  /\ parse_body (req_body (post warm_with_pre_checkout))
     = Some warm_with_pre_checkout
  /\ strict_eq_str (update_id_of warm_with_pre_checkout) (js "0") = true
  /\ truthy (pre_checkout_query_of warm_with_pre_checkout) = true
  /\ answered (post warm_with_pre_checkout) w_ok = [json_response 200 ok_true]
  /\ outbound (post warm_with_pre_checkout) w_ok = [].
Proof.
  do 4 (split; [reflexivity|]).
  apply (warmup_makes_no_call (post warm_with_pre_checkout) w_ok
           warm_with_pre_checkout); [reflexivity | reflexivity |].
  right. reflexivity.
Defined.

(** A string body, parsed, then forwarded; the downstream answers 500. *)
Lemma forward_mirrors_downstream_witness :
  method_of (post (VStr (JSON_stringify message))) = js "POST"
  /\ parse_body (req_body (post (VStr (JSON_stringify message)))) = Some message
  /\ outbound (post (VStr (JSON_stringify message))) w_500
     = [{| rq_url := js "https://bot.example/api/webhook-handler";
           rq_method := js "POST";
           rq_headers := [(js "Content-Type", js "application/json")];
           rq_body := JSON_stringify message |}]
  /\ JSON_parse (JSON_stringify message) = Some message
  /\ answered (post (VStr (JSON_stringify message))) w_500
     = [{| resp_status := 500; resp_body := js "oops" |}]
  /\ answered (post (VStr (JSON_stringify message))) w_down
     = [json_response 502 ok_false].
Proof.
  do 2 (split; [reflexivity|]).
  pose proof (forward_mirrors_downstream
                (post (VStr (JSON_stringify message))) w_500 message
                eq_refl eq_refl eq_refl eq_refl eq_refl)
    as (Hcalls & _ & Hparsed & Hmirror & _).
  pose proof (forward_mirrors_downstream
                (post (VStr (JSON_stringify message))) w_down message
                eq_refl eq_refl eq_refl eq_refl eq_refl)
    as (_ & _ & _ & _ & Hdown & _).
  split; [exact Hcalls|].
  split; [exact (Hparsed _ eq_refl)|].
  split; [exact (Hmirror 500%Z (js "oops") eq_refl) | exact (Hdown eq_refl)].
Defined.

Lemma unparseable_body_rejected_witness :
  method_of (post (VStr (js "{"))) = js "POST"
  /\ JSON_parse (js "{") = None
  /\ is_object (VNum 5%float) = false
  /\ answered (post (VStr (js "{"))) w_ok = [json_response 400 ok_false]
  /\ outbound (post (VStr (js "{"))) w_ok = []
  /\ answered (post (VStr (js "5"))) w_ok = [json_response 400 ok_false]
  /\ outbound (post (VStr (js "5"))) w_ok = [].
Proof.
  do 3 (split; [reflexivity|]).
  pose proof (unparseable_body_rejected (post (VStr (js "{"))) w_ok eq_refl
                (or_introl (ex_intro _ (js "{") (conj eq_refl eq_refl))))
    as [H1 H2].
  pose proof (unparseable_body_rejected (post (VStr (js "5"))) w_ok eq_refl
                (or_intror (ex_intro _ (VNum 5%float) (conj eq_refl eq_refl))))
    as [H3 H4].
  repeat split; assumption.
Defined.


(** The approval call fails (the network is down), is refused (500), or
    succeeds: the caller is answered [200 {ok:true}] each time. *)
Lemma approval_failure_not_surfaced_witness :
  network w_down (approval_request (js "123:ABC")
                    (approval_body (VStr (js "q1")) true)) = None
  /\ answered (post (pre_checkout (VStr (js "premium_9")))) w_down
     = [json_response 200 ok_true]
  /\ answered (post (pre_checkout (VStr (js "premium_9")))) w_500
     = [json_response 200 ok_true]
  /\ answered (post (pre_checkout (VStr (js "premium_9")))) w_ok
     = [json_response 200 ok_true]
  /\ result (handler (post (pre_checkout (VStr (js "premium_9"))))) w_down
     = Returned tt.
Proof.
  split; [reflexivity|].
  pose proof (fun w => approval_failure_not_surfaced
                (post (pre_checkout (VStr (js "premium_9")))) w
                (pre_checkout (VStr (js "premium_9"))) (js "premium_9")
                eq_refl eq_refl eq_refl eq_refl eq_refl) as H.
  split; [exact (proj1 (H w_down))|].
  split; [exact (proj1 (H w_500))|].
  split; [exact (proj1 (H w_ok))|].
  exact (proj1 (proj2 (H w_down))).
Defined.


Lemma exactly_one_response_witness :
  pre_checkout_of (post (pre_checkout (VStr (js "other"))))
  = Some (pre_checkout_query_of (pre_checkout (VStr (js "other"))))
  /\ payload_text (VStr (js "other")) = Some (js "other")
  /\ List.length (answered (post (pre_checkout (VStr (js "other")))) w_down) = 1.
Proof.
  do 2 (split; [reflexivity|]).
  apply (exactly_one_response (post (pre_checkout (VStr (js "other")))) w_down).
  intros pq Hpq.
  assert (E : pq = pre_checkout_query_of (pre_checkout (VStr (js "other")))).
  { change (Some (pre_checkout_query_of (pre_checkout (VStr (js "other"))))
            = Some pq) in Hpq.
    now injection Hpq. }
  rewrite E. discriminate.
Defined.

Lemma status_codes_witness :
  In {| resp_status := 500; resp_body := js "oops" |}
     (answered (post message) w_500)
  /\ (In 500%Z [200; 400; 405; 502]%Z
      \/ exists u downstream,
           parse_body (req_body (post message)) = Some u
           /\ network w_500 (forward_request (post message) u) = Some downstream
           /\ 500%Z = r_status downstream).
Proof.
  assert (H : In {| resp_status := 500; resp_body := js "oops" |}
                 (answered (post message) w_500)) by (left; reflexivity).
  split; [exact H|].
  exact (status_codes (post message) w_500 _ H).
Defined.


(** ** Where the specification's claims fail *)

(** C1: [invoice_payload: 123].  [(123 || '').trim] is not a function:
    the handler throws, makes no approval call and sends nothing. *)
Lemma numeric_payload_no_approval_call :
  method_of (post (pre_checkout (VNum 123%float))) = js "POST"
  /\ parse_body (req_body (post (pre_checkout (VNum 123%float))))
     = Some (pre_checkout (VNum 123%float))
  /\ isWarm (update_id_of (pre_checkout (VNum 123%float))) = false
  /\ truthy (pre_checkout_query_of (pre_checkout (VNum 123%float))) = true
  /\ outbound (post (pre_checkout (VNum 123%float))) w_ok = []
  /\ answered (post (pre_checkout (VNum 123%float))) w_ok = []
  /\ result (handler (post (pre_checkout (VNum 123%float)))) w_ok
     = Threw TypeError.
Proof. repeat split. Qed.

(** C4: [invoice_payload: true].  The request is in the pre-checkout
    branch and the caller gets no response. *)
Lemma boolean_payload_no_response :
  pre_checkout_of (post (pre_checkout (VBool true)))
  = Some (pre_checkout_query_of (pre_checkout (VBool true)))
  /\ answered (post (pre_checkout (VBool true))) w_ok = []
  /\ answered (post (pre_checkout (VBool true))) w_down = []
  /\ result (handler (post (pre_checkout (VBool true)))) w_ok
     = Threw TypeError.
Proof. repeat split. Qed.

(** C6: [invoice_payload: {}].  No response is sent on this path. *)
Lemma object_payload_zero_responses :
  req_method (post (pre_checkout (VObj []))) = Some (js "POST")
  /\ List.length (answered (post (pre_checkout (VObj []))) w_ok) = 0
  /\ List.length (answered (post (pre_checkout (VObj []))) w_ok) <> 1.
Proof. repeat split. discriminate. Qed.

(** C7: the downstream handler answers 500 and the caller receives 500,
    which is none of 200, 400, 405 and 502. *)
Lemma downstream_status_mirrored :
  answered (post message) w_500
  = [{| resp_status := 500; resp_body := js "oops" |}]
  /\ ~ In 500%Z [200; 400; 405; 502]%Z.
Proof.
  split; [reflexivity|].
  simpl. intros [H|[H|[H|[H|[]]]]]; discriminate.
Qed.

(** C9: [invoice_payload: ['premium_1']], not a string.  No approval
    call is made and nothing is answered. *)
Lemma array_payload_no_approval_call :
  method_of (post (pre_checkout (VArr [VStr (js "premium_1")]))) = js "POST"
  /\ truthy (pre_checkout_query_of
               (pre_checkout (VArr [VStr (js "premium_1")]))) = true
  /\ typeof (invoice_payload_of
               (pre_checkout_query_of
                  (pre_checkout (VArr [VStr (js "premium_1")])))) = TObject
  /\ outbound (post (pre_checkout (VArr [VStr (js "premium_1")]))) w_ok = []
  /\ answered (post (pre_checkout (VArr [VStr (js "premium_1")]))) w_ok = [].
Proof. repeat split. Qed.


(** C3: the body arrives as a string, the text of [message] after a
    space.  [JSON.parse] accepts it and the update is forwarded, but the
    body of the call is [JSON.stringify] of the parsed update, which is
    not the text that was received. *)
Lemma spaced_body_not_forwarded_verbatim :
  req_body (post (VStr MoreExamples.spaced_message))
  = VStr MoreExamples.spaced_message
  /\ @method_of LenientRuntime.runtime (post (VStr MoreExamples.spaced_message))
     = js "POST"
  /\ @parse_body LenientRuntime.runtime (VStr MoreExamples.spaced_message)
     = Some message
  /\ isWarm (update_id_of message) = false
  /\ truthy (pre_checkout_query_of message) = false
  /\ List.map rq_body
       (@outbound LenientRuntime.runtime
          (post (VStr MoreExamples.spaced_message)) w_ok)
     = [TestRuntime.stringify message]
  /\ TestRuntime.stringify message <> MoreExamples.spaced_message.
Proof.
  repeat split. intros H. vm_compute in H. discriminate H.
Qed.

(** * Further properties of the webhook handler *)

(** The paths of [handler req w], one goal each, with the trace of the
    path in place of the call. *)
Ltac handler_paths req w :=
  destruct (JsString.eqb (method_of req) (js "GET")) eqn:Hg;
  [ apply eqb_eq in Hg; rewrite (handler_get req w Hg)
  | destruct (JsString.eqb (method_of req) (js "POST")) eqn:Hp;
    [ apply eqb_eq in Hp;
      destruct (parse_body (req_body req)) as [u|] eqn:Hb;
      [ destruct (is_object u) eqn:Ho;
        [ rewrite (handler_route req w u Hp Hb Ho);
          destruct (isWarm (update_id_of u)) eqn:Hw;
          [ rewrite (route_warm req w u Ho Hw)
          | rewrite (route_branch req w u Ho Hw);
            destruct (truthy (pre_checkout_query_of u)) eqn:Hq;
            [ destruct (payload_text
                          (invoice_payload_of (pre_checkout_query_of u)))
                as [s|] eqn:Hs;
              [ rewrite (answer_pre_checkout_trace w _ s Hq Hs)
              | rewrite (answer_pre_checkout_throws w _ Hq Hs) ]
            | rewrite forward_trace ] ]
        | rewrite (handler_bad_request req w Hp) by (now rewrite Hb) ]
      | rewrite (handler_bad_request req w Hp) by (now rewrite Hb) ]
    | rewrite (handler_other_method req w Hg Hp) ] ].

Lemma eqb_neq (a b : jsstring) : a <> b -> JsString.eqb a b = false.
Proof.
  intros H. destruct (JsString.eqb a b) eqn:E; [|reflexivity].
  apply eqb_eq in E. contradiction.
Qed.

Section WebhookMore.

Context {rt : JSRuntime}.

(** X1: a request whose method is neither GET nor POST is answered
    [405 {ok:false}], through [writeHead]/[end] or through
    [status]/[json] as [res] allows; its body is not read and no outbound
    call is made. *)
Theorem other_method_not_allowed (req : request) (w : world) :
  method_of req <> js "GET" ->
  method_of req <> js "POST" ->
  answered req w = [json_response 405 ok_false]
  /\ outbound req w = []
  /\ result (handler req) w = Returned tt.
Proof.
  intros Hg Hp.
  pose proof (eqb_neq _ _ Hg) as Eg.
  pose proof (eqb_neq _ _ Hp) as Ep.
  unfold answered, outbound, run, result.
  rewrite (handler_other_method req w Eg Ep).
  destruct (res_has_writeHead w); repeat split.
Qed.

(** X2: a request without a method, or with the empty method, is
    answered [405 {ok:false}]. *)
Theorem missing_method_not_allowed (req : request) (w : world) :
  req_method req = None \/ req_method req = Some [] ->
  answered req w = [json_response 405 ok_false]
  /\ outbound req w = [].
Proof.
  intros Hm.
  assert (E : method_of req = []).
  { unfold method_of, or_str.
    destruct Hm as [-> | ->]; simpl;
      apply (toUpperCase_ascii (js "")); reflexivity. }
  assert (Eg : JsString.eqb (method_of req) (js "GET") = false)
    by (rewrite E; reflexivity).
  assert (Ep : JsString.eqb (method_of req) (js "POST") = false)
    by (rewrite E; reflexivity).
  unfold answered, outbound, run.
  rewrite (handler_other_method req w Eg Ep).
  destruct (res_has_writeHead w); repeat split.
Qed.

(** X3: the method is matched without regard to ASCII case: two requests
    that differ only in the case of their (ASCII) method are handled
    alike. *)
Theorem method_case_insensitive (req : request) (w : world) (m m' : jsstring) :
  forallb JsString.is_ascii m = true ->
  forallb JsString.is_ascii m' = true ->
  List.map JsString.ascii_upper m = List.map JsString.ascii_upper m' ->
  handler (with_method req (Some m)) w = handler (with_method req (Some m')) w.
Proof.
  intros Ha Ha' Hu.
  assert (E : method_of (with_method req (Some m))
              = method_of (with_method req (Some m'))).
  { rewrite (method_of_ascii (with_method req (Some m)) m eq_refl Ha).
    rewrite (method_of_ascii (with_method req (Some m')) m' eq_refl Ha').
    exact Hu. }
  unfold handler. rewrite E. reflexivity.
Qed.

(** X4: on a request as the platform delivers it ([req.method] a
    string or [undefined], [req.headers] present, [req.body] any value)
    the handler throws exactly when the request enters the pre-checkout
    branch with an [invoice_payload] that is truthy and not a string,
    and what it throws then is a TypeError; a failing outbound call or
    body read never makes it throw. *)
Theorem throws_only_on_untrimmable_payload (req : request) (w : world) :
  result (handler req) w =
    match pre_checkout_of req with
    | Some pq =>
        match payload_text (invoice_payload_of pq) with
        | Some _ => Returned tt
        | None => Threw TypeError
        end
    | None => Returned tt
    end.
Proof.
  unfold result, pre_checkout_of.
  handler_paths req w; cbn [snd negb andb]; try rewrite Hs;
    try destruct (res_has_writeHead w); reflexivity.
Qed.

(** X5: no invocation makes more than one outbound call. *)
Theorem at_most_one_call (req : request) (w : world) :
  List.length (outbound req w) <= 1.
Proof.
  unfold outbound, run.
  handler_paths req w; cbn [fst]; try (simpl; lia).
  - unfold approval_log.
    destruct (network w _) as [[code [t|]]|]; try destruct (r_ok _);
      simpl; lia.
  - destruct (network w _) as [[code [t|]]|]; simpl; lia.
  - destruct (res_has_writeHead w); simpl; lia.
Qed.

(** X6: every outbound call is a POST with the JSON content type, and
    it goes either to the messaging API's [answerPreCheckoutQuery] of
    the configured bot or to [/api/webhook-handler] on the request's own
    host (on [careeraibot.vercel.app] without one). *)
Theorem calls_only_known_endpoints (req : request) (w : world)
    (c : out_request) :
  In c (outbound req w) ->
  rq_method c = js "POST"
  /\ rq_headers c = [content_type_json]
  /\ (rq_url c = js "https://api.telegram.org/bot" ++ token_of w
                 ++ js "/answerPreCheckoutQuery"
      \/ rq_url c = js "https://"
                    ++ or_str (req_host req) (js "careeraibot.vercel.app")
                    ++ js "/api/webhook-handler").
Proof.
  unfold outbound, run.
  handler_paths req w; cbn [fst]; intros Hc;
    try (simpl in Hc; contradiction).
  - assert (Hin : c = approval_request (token_of w)
                        (approval_body (id_of (pre_checkout_query_of u))
                           (valid_payload s))).
    { unfold approval_log in Hc.
      destruct (network w _) as [[code [t|]]|]; try destruct (r_ok _);
        simpl in Hc; destruct Hc as [<-|[]]; reflexivity. }
    subst c. repeat split. now left.
  - assert (Hin : c = forward_request req u).
    { destruct (network w _) as [[code [t|]]|];
        simpl in Hc; destruct Hc as [<-|[]]; reflexivity. }
    subst c. repeat split. now right.
  - destruct (res_has_writeHead w); simpl in Hc; contradiction.
Qed.

(** X7: the handler answers only after its outbound call: no call is
    made once a response has been sent. *)
Theorem no_call_after_response (req : request) (w : world) :
  late_calls false (run (handler req) w) = [].
Proof.
  unfold run.
  handler_paths req w; cbn [fst]; try reflexivity.
  - unfold approval_log.
    destruct (network w _) as [[code [t|]]|]; try destruct (r_ok _);
      reflexivity.
  - destruct (network w _) as [[code [t|]]|]; reflexivity.
  - destruct (res_has_writeHead w); reflexivity.
Qed.

(** X8: an array body passes the test of line 35 and is forwarded to the
    downstream handler like an update. *)
Theorem array_body_forwarded (req : request) (w : world) (items : list value) :
  method_of req = js "POST" ->
  req_body req = VArr items ->
  outbound req w = [forward_request req (VArr items)].
Proof.
  intros Hm Hb. unfold outbound, run.
  assert (Hp : parse_body (req_body req) = Some (VArr items))
    by (now rewrite Hb).
  rewrite (handler_route req w (VArr items) Hm Hp eq_refl).
  rewrite (route_branch req w (VArr items) eq_refl eq_refl).
  cbn [pre_checkout_query_of field get_prop truthy].
  rewrite forward_trace. cbn [fst].
  destruct (network w _) as [[code [t|]]|]; reflexivity.
Qed.

(** X9: a string body is handled as the value it parses to, when that
    value is not a string itself (a body is parsed once). *)
Theorem string_body_as_parsed (req : request) (w : world) (s : jsstring)
    (u : value) :
  JSON_parse s = Some u ->
  typeof u <> TString ->
  handler (with_body req (VStr s)) w = handler (with_body req u) w.
Proof.
  intros Hp Hu. unfold handler.
  change (method_of (with_body req (VStr s))) with (method_of req).
  change (method_of (with_body req u)) with (method_of req).
  assert (E : parse_body (req_body (with_body req (VStr s)))
              = parse_body (req_body (with_body req u))).
  { cbn [with_body req_body parse_body]. rewrite Hp.
    destruct u; try reflexivity. now elim Hu. }
  rewrite E. reflexivity.
Qed.

End WebhookMore.

(** ** Which payloads are approved *)

Section Trim.

Import JsString.

Lemma trimStart_split (s : jsstring) :
  exists ws, forallb is_white_space ws = true /\ s = ws ++ trimStart s.
Proof.
  induction s as [|c s (ws & Hws & Hs)]; simpl.
  - exists []. split; reflexivity.
  - destruct (is_white_space c) eqn:Hc.
    + exists (c :: ws). simpl. rewrite Hc, Hws. split; [reflexivity|].
      now f_equal.
    + exists []. split; reflexivity.
Qed.

Lemma trimStart_blank_prefix (ws x : jsstring) :
  forallb is_white_space ws = true -> trimStart (ws ++ x) = trimStart x.
Proof.
  induction ws as [|c ws IH]; simpl; [reflexivity|].
  intros H. apply andb_true_iff in H as [Hc Hws]. rewrite Hc. now apply IH.
Qed.

(** Trimming the start of [a ++ c :: b] stops at [c] at the latest when
    [c] is not blank. *)
Lemma trimStart_keeps (a b : jsstring) (c : N) :
  is_white_space c = false ->
  exists a', trimStart (a ++ c :: b) = a' ++ c :: b.
Proof.
  intros Hc. induction a as [|d a (a' & IH)]; simpl.
  - rewrite Hc. now exists [].
  - destruct (is_white_space d).
    + now exists a'.
    + now exists (d :: a).
Qed.

Lemma trimEnd_split (x : jsstring) :
  exists t, x = trimEnd x ++ t.
Proof.
  unfold trimEnd. destruct (trimStart_split (rev x)) as (ws & _ & H).
  exists (rev ws).
  rewrite <- rev_app_distr, <- H. now rewrite rev_involutive.
Qed.

Lemma startsWith_app (p r : jsstring) : startsWith (p ++ r) p = true.
Proof.
  induction p as [|c p IH]; simpl; [destruct r; reflexivity|].
  now rewrite N.eqb_refl, IH.
Qed.

Lemma startsWith_split (s p : jsstring) :
  startsWith s p = true -> exists r, s = p ++ r.
Proof.
  revert s. induction p as [|c p IH]; intros s H.
  - now exists s.
  - destruct s as [|d s]; simpl in H; [discriminate|].
    apply andb_true_iff in H as [Hc Hr]. apply N.eqb_eq in Hc. subst d.
    destruct (IH s Hr) as (r & ->). now exists r.
Qed.

(** X10: a payload is approved exactly when, after its leading blanks,
    it starts with [premium_]; what follows the prefix (trailing blanks
    included) does not matter. *)
Theorem valid_payload_iff (s : jsstring) :
  valid_payload s = true <->
  exists ws rest,
    forallb is_white_space ws = true /\ s = ws ++ js "premium_" ++ rest.
Proof.
  unfold valid_payload, trim. split.
  - intros H. apply startsWith_split in H as (r & Hr).
    destruct (trimStart_split s) as (ws & Hws & Hs).
    destruct (trimEnd_split (trimStart s)) as (t & Ht).
    exists ws, (r ++ t). split; [exact Hws|].
    rewrite Hs at 1. f_equal. rewrite Ht at 1. rewrite Hr.
    now rewrite <- !app_assoc.
  - intros (ws & rest & Hws & ->).
    rewrite (trimStart_blank_prefix _ _ Hws).
    change (trimStart (js "premium_" ++ rest)) with (js "premium_" ++ rest).
    unfold trimEnd. rewrite rev_app_distr.
    change (rev (js "premium_")) with (95%N :: rev (js "premium")).
    destruct (trimStart_keeps (rev rest) (rev (js "premium")) 95%N eq_refl)
      as (a' & ->).
    rewrite rev_app_distr.
    change (rev (95%N :: rev (js "premium"))) with (js "premium_").
    apply startsWith_app.
Qed.

End Trim.

(** * Further properties of the edge proxy *)

Module ProxyMore.

Import Proxy.

Lemma values_of_delete_other (k n : jsstring) (hs : headers) :
  k <> n -> values_of k (delete n hs) = values_of k hs.
Proof.
  intros Hk. unfold values_of, delete.
  induction hs as [|[k0 x] r IH]; simpl; [reflexivity|].
  destruct (JsString.eqb k0 n) eqn:E; simpl.
  - apply eqb_eq in E. subst k0.
    rewrite (eqb_neq n k (fun H => Hk (eq_sym H))). exact IH.
  - destruct (JsString.eqb k0 k); simpl; now rewrite IH.
Qed.

Lemma values_of_set_lower_other (k n v : jsstring) (hs : headers) :
  k <> n -> values_of k (set_lower n v hs) = values_of k hs.
Proof.
  intros Hk.
  assert (Hnk : JsString.eqb n k = false)
    by (apply eqb_neq; intros H; now apply Hk).
  induction hs as [|[k0 x] r IH]; simpl.
  - unfold values_of. simpl. now rewrite Hnk.
  - destruct (JsString.eqb k0 n) eqn:E.
    + apply eqb_eq in E. subst k0.
      unfold values_of at 1 2. simpl. rewrite Hnk.
      apply (values_of_delete_other k n r Hk).
    + unfold values_of in *. simpl.
      destruct (JsString.eqb k0 k); simpl; now rewrite IH.
Qed.

(** The 500 response carries no CORS header. *)
Lemma error_response_headers {rt : JSRuntime} (message : jsstring) :
  status (error_response message) = 500%Z
  /\ get (js "Content-Type") (response_headers (error_response message))
     = Some (js "application/json")
  /\ get (js "Access-Control-Allow-Origin")
       (response_headers (error_response message)) = None.
Proof. repeat split. Qed.

Section Claims.

Context {rt : JSRuntime}.

(** X11: a request to the root path (or to the empty path) is answered
    by the proxy itself, whatever its method, OPTIONS included: no call
    is made, the status is 200, the content type is JSON and there is no
    [Access-Control-Allow-Origin] header. *)
Theorem root_path_answered_locally (e : env) (rq : request) :
  pathname rq = js "/" \/ pathname rq = js "" ->
  fst (fetch e rq) = []
  /\ status (snd (fetch e rq)) = 200%Z
  /\ get (js "Content-Type") (response_headers (snd (fetch e rq)))
     = Some (js "application/json")
  /\ get (js "Access-Control-Allow-Origin")
       (response_headers (snd (fetch e rq))) = None.
Proof.
  intros Hp. unfold fetch.
  assert (E : JsString.eqb (pathname rq) (js "/")
              || JsString.eqb (pathname rq) (js "") = true).
  { destruct Hp as [-> | ->]; reflexivity. }
  rewrite E. repeat split.
Qed.

(** X12: an OPTIONS request to any other path is answered by the proxy
    itself: no call is made, and the empty 200 response allows every
    origin, the methods GET, POST and OPTIONS, and every header. *)
Theorem preflight_answered_locally (e : env) (rq : request) :
  pathname rq <> js "/" ->
  pathname rq <> js "" ->
  method rq = js "OPTIONS" ->
  fst (fetch e rq) = []
  /\ status (snd (fetch e rq)) = 200%Z
  /\ body (snd (fetch e rq)) = None
  /\ get (js "Access-Control-Allow-Origin")
       (response_headers (snd (fetch e rq))) = Some (js "*")
  /\ get (js "Access-Control-Allow-Methods")
       (response_headers (snd (fetch e rq))) = Some (js "GET, POST, OPTIONS")
  /\ get (js "Access-Control-Allow-Headers")
       (response_headers (snd (fetch e rq))) = Some (js "*").
Proof.
  intros H1 H2 Hm. unfold fetch.
  rewrite (eqb_neq _ _ H1), (eqb_neq _ _ H2), Hm.
  repeat split.
Qed.

(** X13: the status of the proxy's response is always from 200 to 599. *)
Theorem proxy_status_in_range (e : env) (rq : request) :
  (200 <= status (snd (fetch e rq)) <= 599)%Z.
Proof.
  unfold fetch.
  destruct (JsString.eqb (pathname rq) (js "/")
            || JsString.eqb (pathname rq) (js "")); [simpl; lia|].
  destruct (JsString.eqb (method rq) (js "OPTIONS")); [simpl; lia|].
  cbn [snd].
  destruct (upstream e (proxiedRequest rq)) as [m|r]; [simpl; lia|].
  unfold rewrap.
  destruct ((200 <=? status r) && (status r <=? 599))%Z eqn:E;
    cbn [negb]; [|simpl; lia].
  apply andb_true_iff in E as [Hlo Hhi].
  apply Z.leb_le in Hlo. apply Z.leb_le in Hhi.
  destruct (body r); [destruct (null_body_status (status r))|];
    simpl; lia.
Qed.

(** X14: when the forwarded call fails, or returns what the [Response]
    constructor refuses (a status outside 200..599, a body on a status
    that has none), the caller receives a 500 response whose body is the
    JSON object [{error: message}], without an
    [Access-Control-Allow-Origin] header. *)
Theorem proxy_failure_is_500 (e : env) (rq : request) :
  pathname rq <> js "/" ->
  pathname rq <> js "" ->
  method rq <> js "OPTIONS" ->
  (forall r, upstream e (proxiedRequest rq) = Answers r ->
             (status r < 200)%Z \/ (599 < status r)%Z
             \/ (null_body_status (status r) = true /\ body r <> None)) ->
  status (snd (fetch e rq)) = 500%Z
  /\ get (js "Access-Control-Allow-Origin")
       (response_headers (snd (fetch e rq))) = None
  /\ exists message,
       body (snd (fetch e rq))
       = Some (JSON_stringify (VObj [(js "error", VStr message)])).
Proof.
  intros H1 H2 H3 Hfail.
  assert (E : exists message, snd (fetch e rq) = error_response message).
  { unfold fetch.
    rewrite (eqb_neq _ _ H1), (eqb_neq _ _ H2), (eqb_neq _ _ H3).
    cbn [orb snd].
    destruct (upstream e (proxiedRequest rq)) as [m|r] eqn:Hup;
      [now exists m|].
    unfold rewrap.
    destruct (Hfail r eq_refl) as [Hlo | [Hhi | [Hnull Hbody]]].
    - apply Z.leb_gt in Hlo. rewrite Hlo. now eexists.
    - apply Z.leb_gt in Hhi. rewrite Hhi, andb_false_r. now eexists.
    - destruct (negb _); [now eexists|].
      destruct (body r); [|now elim Hbody].
      rewrite Hnull. now eexists. }
  destruct E as (message & ->).
  split; [reflexivity|]. split; [reflexivity|]. now exists message.
Qed.

(** X15: the proxy passes every other header of the upstream response
    on as it is: only [Access-Control-Allow-Origin] is set. *)
Theorem other_headers_preserved (e : env) (rq : request) (r : response)
    (name : jsstring) :
  pathname rq <> js "/" ->
  pathname rq <> js "" ->
  method rq <> js "OPTIONS" ->
  upstream e (proxiedRequest rq) = Answers r ->
  (200 <= status r <= 599)%Z ->
  (null_body_status (status r) = true -> body r = None) ->
  lower name <> lower (js "Access-Control-Allow-Origin") ->
  get name (response_headers (snd (fetch e rq)))
  = get name (response_headers r).
Proof.
  intros H1 H2 H3 Hup Hstatus Hnull Hname. unfold fetch.
  rewrite (eqb_neq _ _ H1), (eqb_neq _ _ H2), (eqb_neq _ _ H3).
  cbn [orb snd].
  rewrite Hup, (ProxyFacts.rewrap_accepts e r Hstatus Hnull).
  cbn [response_headers]. unfold get, set.
  now rewrite (values_of_set_lower_other _ _ (js "*") (response_headers r) Hname).
Qed.

(** X16: the proxy makes at most one call, and a call it makes goes to
    an address that starts with
    [https://generativelanguage.googleapis.com], with the method, the
    headers and the body of the inbound request. *)
Theorem proxy_calls_only_the_api (e : env) (rq : request) :
  List.length (fst (fetch e rq)) <= 1
  /\ forall c, In c (fst (fetch e rq)) ->
       JsString.startsWith (proxied_url c)
         (js "https://generativelanguage.googleapis.com") = true
       /\ proxied_method c = method rq
       /\ proxied_headers c = request_headers rq
       /\ proxied_body c = request_body rq.
Proof.
  unfold fetch.
  destruct (JsString.eqb (pathname rq) (js "/")
            || JsString.eqb (pathname rq) (js ""));
    [split; [simpl; lia | intros c []]|].
  destruct (JsString.eqb (method rq) (js "OPTIONS"));
    [split; [simpl; lia | intros c []]|].
  cbn [fst]. split; [simpl; lia|].
  intros c [<-|[]]. split; [|repeat split].
  apply (startsWith_app externalUrl).
Qed.

End Claims.

End ProxyMore.

(** * Properties of the install script *)

Module InstallFacts.

Import Install.

Section Facts.

Variable exit_code : string -> list string -> Z.

Lemma install_package_events (pkg : string) (last : option Z) :
  install_package exit_code pkg last
  = (package_events exit_code pkg, Some (exit_code "pip" (package_args pkg))).
Proof.
  unfold install_package, package_events, failure_line.
  cbv [sequence fold_right seq write_host native skip if_failed failed].
  destruct (exit_code "pip" (package_args pkg) =? 0)%Z; reflexivity.
Qed.

Lemma foreach_events (l : list string) (last : option Z) :
  fst (foreach l (install_package exit_code) last)
  = flat_map (package_events exit_code) l.
Proof.
  revert last. induction l as [|pkg l IH]; intros last; [reflexivity|].
  unfold foreach in *. simpl List.map. simpl sequence.
  unfold seq at 1. rewrite install_package_events.
  specialize (IH (Some (exit_code "pip" (package_args pkg)))).
  destruct (sequence _ _) as [t s]. simpl in *. now rewrite IH.
Qed.

Lemma transcript_parts (last : option Z) :
  transcript exit_code last
  = (opening
     ++ (if (exit_code "pip" requirements_args =? 0)%Z then []
         else WriteHost (nl ++ "⚠️  Установка с --prefer-binary не удалась. Пробуем установить пакеты по одному...") Yellow
              :: flat_map (package_events exit_code) packages)
     ++ closing)%list.
Proof.
  unfold transcript, install.
  cbv [sequence fold_right seq write_host native native_select skip].
  unfold if_failed, failed.
  destruct (exit_code "pip" requirements_args =? 0)%Z.
  - reflexivity.
  - cbv [negb].
    pose proof (foreach_events packages (Some (exit_code "pip" requirements_args))) as H.
    destruct (foreach packages _ _) as [t s]. simpl in H. subst t.
    unfold opening, closing. simpl. now rewrite app_nil_r.
Qed.


Lemma red_lines_app (a b : list event) :
  red_lines (a ++ b) = (red_lines a ++ red_lines b)%list.
Proof. apply flat_map_app. Qed.


Lemma red_lines_yellow (text : string) (tr : list event) :
  red_lines (WriteHost text Yellow :: tr) = red_lines tr.
Proof. reflexivity. Qed.


Lemma red_lines_package_events (l : list string) :
  red_lines (flat_map (package_events exit_code) l)
  = List.map failure_line
      (filter (fun pkg => negb (exit_code "pip" (package_args pkg) =? 0)%Z) l).
Proof.
  unfold red_lines. induction l as [|pkg l IH]; [reflexivity|].
  change (flat_map (package_events exit_code) (pkg :: l))
    with (package_events exit_code pkg
          ++ flat_map (package_events exit_code) l)%list.
  rewrite flat_map_app, IH.
  unfold package_events. simpl filter.
  destruct (exit_code "pip" (package_args pkg) =? 0)%Z; reflexivity.
Qed.

(** X17: when the install from [requirements.txt] succeeds, no package
    is installed on its own and no failure is reported: the script goes
    from that install to the final check. *)
Theorem requirements_success_no_fallback (last : option Z) :
  exit_code "pip" requirements_args = 0%Z ->
  transcript exit_code last = (opening ++ closing)%list
  /\ pip_installs (transcript exit_code last) = [requirements_args]%list
  /\ red_lines (transcript exit_code last) = []%list.
Proof.
  intros H. rewrite transcript_parts, H. repeat split.
Qed.


(** X19: in that case a failure line is shown for exactly the packages
    whose own install fails, in the order of the list. *)
Theorem fallback_reports_failures (last : option Z) :
  exit_code "pip" requirements_args <> 0%Z ->
  red_lines (transcript exit_code last)
  = List.map failure_line (failing_packages exit_code).
Proof.
  intros H. apply Z.eqb_neq in H. rewrite transcript_parts, H.
  rewrite !red_lines_app.
  change (red_lines opening) with (@nil string).
  change (red_lines closing) with (@nil string).
  rewrite app_nil_r, red_lines_yellow.
  now rewrite red_lines_package_events.
Qed.

End Facts.

End InstallFacts.

(** * Concrete runs of the further properties *)

Import MoreExamples.

Lemma other_method_not_allowed_witness :
  method_of put_request <> js "GET"
  /\ method_of put_request <> js "POST"
  /\ answered put_request w_ok = [json_response 405 ok_false]
  /\ answered put_request w_500 = [json_response 405 ok_false]
  /\ outbound put_request w_ok = [].
Proof.
  assert (Hg : method_of put_request <> js "GET") by discriminate.
  assert (Hp : method_of put_request <> js "POST") by discriminate.
  destruct (other_method_not_allowed put_request w_ok Hg Hp) as (H1 & H2 & _).
  destruct (other_method_not_allowed put_request w_500 Hg Hp) as (H3 & _).
  repeat split; assumption.
Defined.

Lemma missing_method_not_allowed_witness :
  req_method no_method_request = None
  /\ answered no_method_request w_ok = [json_response 405 ok_false]
  /\ outbound no_method_request w_ok = [].
Proof.
  split; [reflexivity|].
  exact (missing_method_not_allowed no_method_request w_ok (or_introl eq_refl)).
Defined.

Lemma method_case_insensitive_witness :
  List.map JsString.ascii_upper (js "post") = js "POST"
  /\ handler (with_method (post message) (Some (js "post"))) w_500
     = handler (with_method (post message) (Some (js "POST"))) w_500.
Proof.
  split; [reflexivity|].
  exact (method_case_insensitive (post message) w_500 (js "post") (js "POST")
           eq_refl eq_refl eq_refl).
Defined.

Lemma calls_only_known_endpoints_witness :
  In (forward_request (post message) message) (outbound (post message) w_ok)
  /\ rq_url (forward_request (post message) message)
     = js "https://bot.example/api/webhook-handler"
  /\ rq_method (forward_request (post message) message) = js "POST".
Proof.
  assert (H : In (forward_request (post message) message)
                 (outbound (post message) w_ok)) by (left; reflexivity).
  destruct (calls_only_known_endpoints (post message) w_ok _ H)
    as (Hm & _ & _).
  repeat split; assumption.
Defined.

Lemma array_body_forwarded_witness :
  method_of (post (VArr [VNum 1%float])) = js "POST"
  /\ outbound (post (VArr [VNum 1%float])) w_ok
     = [forward_request (post (VArr [VNum 1%float])) (VArr [VNum 1%float])].
Proof.
  split; [reflexivity|].
  exact (array_body_forwarded (post (VArr [VNum 1%float])) w_ok
           [VNum 1%float] eq_refl eq_refl).
Defined.

Lemma string_body_as_parsed_witness :
  JSON_parse (JSON_stringify message) = Some message
  /\ handler (with_body (post VNull) (VStr (JSON_stringify message))) w_500
     = handler (with_body (post VNull) message) w_500.
Proof.
  split; [reflexivity|].
  apply (string_body_as_parsed (post VNull) w_500 (JSON_stringify message)
           message); [reflexivity | discriminate].
Defined.

Lemma root_path_answered_locally_witness :
  Proxy.pathname root_options = js "/"
  /\ Proxy.method root_options = js "OPTIONS"
  /\ fst (Proxy.fetch upstream_ok root_options) = []
  /\ Proxy.status (snd (Proxy.fetch upstream_ok root_options)) = 200%Z
  /\ Proxy.get (js "Access-Control-Allow-Origin")
       (Proxy.response_headers (snd (Proxy.fetch upstream_ok root_options)))
     = None.
Proof.
  do 2 (split; [reflexivity|]).
  destruct (ProxyMore.root_path_answered_locally upstream_ok root_options
              (or_introl eq_refl)) as (H1 & H2 & _ & H4).
  repeat split; assumption.
Defined.

Lemma preflight_answered_locally_witness :
  Proxy.method preflight = js "OPTIONS"
  /\ fst (Proxy.fetch upstream_down preflight) = []
  /\ Proxy.status (snd (Proxy.fetch upstream_down preflight)) = 200%Z
  /\ Proxy.get (js "access-control-allow-methods")
       (Proxy.response_headers (snd (Proxy.fetch upstream_down preflight)))
     = Some (js "GET, POST, OPTIONS").
Proof.
  split; [reflexivity|].
  assert (H1 : Proxy.pathname preflight <> js "/") by discriminate.
  assert (H2 : Proxy.pathname preflight <> js "") by discriminate.
  destruct (ProxyMore.preflight_answered_locally upstream_down preflight
              H1 H2 eq_refl) as (Hc & Hs & _ & _ & Hm & _).
  repeat split; assumption.
Defined.

Lemma proxy_failure_is_500_witness :
  Proxy.upstream upstream_101 (Proxy.proxiedRequest generate)
  = Proxy.Answers {| Proxy.status := 101; Proxy.response_headers := [];
                     Proxy.body := None |}
  /\ Proxy.status (snd (Proxy.fetch upstream_101 generate)) = 500%Z
  /\ Proxy.status (snd (Proxy.fetch upstream_down generate)) = 500%Z
  /\ Proxy.body (snd (Proxy.fetch upstream_down generate))
     = Some (JSON_stringify (VObj [(js "error", VStr (js "network down"))])).
Proof.
  split; [reflexivity|].
  assert (H1 : Proxy.pathname generate <> js "/") by discriminate.
  assert (H2 : Proxy.pathname generate <> js "") by discriminate.
  assert (H3 : Proxy.method generate <> js "OPTIONS") by discriminate.
  assert (F1 : forall r,
             Proxy.upstream upstream_101 (Proxy.proxiedRequest generate)
             = Proxy.Answers r ->
             (Proxy.status r < 200)%Z \/ (599 < Proxy.status r)%Z
             \/ (Proxy.null_body_status (Proxy.status r) = true
                 /\ Proxy.body r <> None)).
  { intros r Hr. injection Hr as <-. left. simpl. lia. }
  assert (F2 : forall r,
             Proxy.upstream upstream_down (Proxy.proxiedRequest generate)
             = Proxy.Answers r ->
             (Proxy.status r < 200)%Z \/ (599 < Proxy.status r)%Z
             \/ (Proxy.null_body_status (Proxy.status r) = true
                 /\ Proxy.body r <> None)).
  { intros r Hr. discriminate Hr. }
  destruct (ProxyMore.proxy_failure_is_500 upstream_101 generate H1 H2 H3 F1)
    as (Hs1 & _).
  destruct (ProxyMore.proxy_failure_is_500 upstream_down generate H1 H2 H3 F2)
    as (Hs2 & _).
  repeat split; assumption.
Defined.

Lemma other_headers_preserved_witness :
  Proxy.lower (js "Content-Type")
  <> Proxy.lower (js "Access-Control-Allow-Origin")
  /\ Proxy.get (js "Content-Type")
       (Proxy.response_headers (snd (Proxy.fetch upstream_ok generate)))
     = Some (js "application/json").
Proof.
  assert (Hn : Proxy.lower (js "Content-Type")
               <> Proxy.lower (js "Access-Control-Allow-Origin"))
    by discriminate.
  split; [exact Hn|].
  assert (H1 : Proxy.pathname generate <> js "/") by discriminate.
  assert (H2 : Proxy.pathname generate <> js "") by discriminate.
  assert (H3 : Proxy.method generate <> js "OPTIONS") by discriminate.
  rewrite (ProxyMore.other_headers_preserved upstream_ok generate _
             (js "Content-Type") H1 H2 H3 eq_refl
             ltac:(simpl; lia) ltac:(discriminate) Hn).
  reflexivity.
Defined.

Lemma requirements_success_no_fallback_witness :
  all_succeed "pip" Install.requirements_args = 0%Z
  /\ Install.pip_installs (Install.transcript all_succeed None)
     = [Install.requirements_args]
  /\ Install.red_lines (Install.transcript all_succeed None) = [].
Proof.
  split; [reflexivity|].
  exact (proj2 (InstallFacts.requirements_success_no_fallback
                  all_succeed None eq_refl)).
Defined.


Lemma fallback_reports_failures_witness :
  some_fail "pip" Install.requirements_args = 1%Z
  /\ Install.failing_packages some_fail
     = ["uvicorn[standard]>=0.27.0"; "PyPDF2>=3.0.0"]%string
  /\ Install.red_lines (Install.transcript some_fail None)
     = List.map Install.failure_line
         ["uvicorn[standard]>=0.27.0"; "PyPDF2>=3.0.0"]%string.
Proof.
  do 2 (split; [reflexivity|]).
  exact (InstallFacts.fallback_reports_failures some_fail None
           ltac:(discriminate)).
Defined.
